(** * Build-integration scripts of fipers: a shallow embedding

    The three scripts under [scripts/] splice a prebuilt native library into
    a Flutter project.  The iOS and macOS scripts rewrite the Xcode manifest
    [project.pbxproj] with [re.sub]; the Android script only inspects the
    project.  This file embeds

    - Python's [in], [re.sub] and the regular expressions the scripts use,
    - [hashlib.sha1] and [generate_id],
    - the text rewriting of [integrate_ios_library.py] and
      [integrate_macos_library.py],
    - the three scripts as programs over a file system with a console,

    and states the properties of the specification over them. *)

From Stdlib Require Import List Ascii String Bool Arith Lia ZArith.
From stdpp Require Import gmap strings.
Import ListNotations.

#[local] Open Scope list_scope.
#[local] Open Scope bool_scope.

(** ** Text

    A Python [str] read from the manifest is modelled as a list of
    characters.  Every pattern and every inserted fragment of the scripts is
    plain ASCII, so a character is an [ascii]; a manifest with other
    characters is its UTF-8 byte sequence. *)

Definition text := list ascii.

Definition txt (s : string) : text := list_ascii_of_string s.

Definition TAB : ascii := "009"%char.
Definition NL : ascii := "010"%char.
Definition DQ : ascii := "034"%char.

Definition tabs (n : nat) : text := repeat TAB n.

(** A double-quoted token, as the manifest writes list entries. *)
Definition quoted (s : string) : text := DQ :: txt s ++ [DQ].

(** [s.startswith(p)] *)
Fixpoint starts_with (p s : text) : bool :=
  match p, s with
  | [], _ => true
  | a :: p', b :: s' => Ascii.eqb a b && starts_with p' s'
  | _ :: _, [] => false
  end.

(** [p in s] *)
Fixpoint contains (p s : text) : bool :=
  match s with
  | [] => starts_with p []
  | _ :: s' => starts_with p s || contains p s'
  end.

(** The rest of [s] after the prefix [p], when [s] starts with [p]. *)
Fixpoint strip_prefix (p s : text) : option text :=
  match p, s with
  | [], _ => Some s
  | a :: p', b :: s' => if Ascii.eqb a b then strip_prefix p' s' else None
  | _ :: _, [] => None
  end.

(** [c.isspace()] on ASCII *)
Definition is_space (c : ascii) : bool :=
  let n := N_of_ascii c in
  ((9 <=? n) && (n <=? 13) || (28 <=? n) && (n <=? 32))%N.

(** [s.split(sep)] for a separator of one character *)
Fixpoint split_on (sep : ascii) (s : text) : list text :=
  match s with
  | [] => [[]]
  | c :: s' =>
      if Ascii.eqb c sep then [] :: split_on sep s'
      else
        match split_on sep s' with
        | w :: ws => (c :: w) :: ws
        | [] => [[c]]
        end
  end.

(** [s.lstrip()] and [s.strip()] *)
Fixpoint lstrip (s : text) : text :=
  match s with
  | c :: s' => if is_space c then lstrip s' else s
  | [] => []
  end.

Definition strip (s : text) : text := rev (lstrip (rev (lstrip s))).

Fixpoint take_word (s : text) : text :=
  match s with
  | c :: s' => if is_space c then [] else c :: take_word s'
  | [] => []
  end.

(** [s.split()[0]], for a line that is not blank (the scripts take it only
    of lines that contain a path). *)
Definition first_word (s : text) : text := take_word (lstrip s).

(** ** Regular expressions

    The patterns of the scripts are sequences of three kinds of items:
    literal characters, a greedy run of characters other than [c] (a negated
    class under a star) and, in the macOS script under [re.DOTALL], a greedy
    run of any characters.  Their groups always cover whole items, so a match is
    returned as the list of the pieces matched by the items, in order. *)

Inductive atom : Type :=
| Lit (l : text)
| StarNot (c : ascii)
| StarAny.

Definition regex := list atom.

(** A greedy star over the characters accepted by [ok], followed by the
    continuation [k]: the longest run is tried first, and the run is
    shortened one character at a time while the continuation fails. *)
Fixpoint star {A : Type} (ok : ascii -> bool) (k : text -> option A)
    (s : text) : option (text * A) :=
  match s with
  | x :: s' =>
      if ok x then
        match star ok k s' with
        | Some (seg, a) => Some (x :: seg, a)
        | None => option_map (pair []) (k s)
        end
      else option_map (pair []) (k s)
  | [] => option_map (pair []) (k s)
  end.

Definition glue (seg : text) (m : option (list text * text))
  : option (list text * text) :=
  match m with
  | Some (segs, rest) => Some (seg :: segs, rest)
  | None => None
  end.

Definition unpack (m : option (text * (list text * text)))
  : option (list text * text) :=
  match m with
  | Some (seg, (segs, rest)) => Some (seg :: segs, rest)
  | None => None
  end.

(** [re.match]: the match of [r] at the start of [s], as the pieces matched
    and the text after the match. *)
Fixpoint match_here (r : regex) (s : text) : option (list text * text) :=
  match r with
  | [] => Some ([], s)
  | Lit l :: r' =>
      match strip_prefix l s with
      | Some s' => glue l (match_here r' s')
      | None => None
      end
  | StarNot c :: r' =>
      unpack (star (fun x => negb (Ascii.eqb x c)) (match_here r') s)
  | StarAny :: r' =>
      unpack (star (fun _ => true) (match_here r') s)
  end.

(** [re.sub(r, repl, s)]: every leftmost non-overlapping match is replaced
    by [repl] applied to its pieces.  [skip] counts the characters of the
    current match that are still to be passed over. *)
Fixpoint sub_from (r : regex) (repl : list text -> text) (skip : nat)
    (s : text) : text :=
  match s with
  | [] =>
      match skip, match_here r [] with
      | O, Some (segs, _) => repl segs
      | _, _ => []
      end
  | x :: s' =>
      match skip with
      | S k => sub_from r repl k s'
      | O =>
          match match_here r s with
          | Some (segs, _) =>
              match length (concat segs) with
              | O => repl segs ++ x :: sub_from r repl 0 s'
              | S k => repl segs ++ sub_from r repl k s'
              end
          | None => x :: sub_from r repl 0 s'
          end
      end
  end.

Definition re_sub (r : regex) (repl : list text -> text) (s : text) : text :=
  sub_from r repl 0 s.

(** [re.finditer]: the pieces of the successive matches that [re.sub]
    replaces. *)
Fixpoint matches_from (r : regex) (skip : nat) (s : text) : list (list text) :=
  match s with
  | [] =>
      match skip, match_here r [] with
      | O, Some (segs, _) => [segs]
      | _, _ => []
      end
  | x :: s' =>
      match skip with
      | S k => matches_from r k s'
      | O =>
          match match_here r s with
          | Some (segs, _) =>
              segs :: matches_from r (pred (length (concat segs))) s'
          | None => matches_from r 0 s'
          end
      end
  end.

Definition re_matches (r : regex) (s : text) : list (list text) :=
  matches_from r 0 s.

(** [match.group(0)] *)
Definition group0 (segs : list text) : text := concat segs.

(** ** The manifest rewriting of [integrate_ios_library.py] *)

Module IOS.

Definition library_name : text := txt "libfipers.a".

Definition file_ref_marker : text := txt "/* End PBXFileReference section */".
Definition build_file_marker : text := txt "/* End PBXBuildFile section */".

Definition file_ref_pattern : regex := [Lit file_ref_marker].
Definition build_file_pattern : regex := [Lit build_file_marker].

Definition frameworks_group_pattern : regex :=
  [Lit (txt "71A9A1607E036E391BA6A301 /* Frameworks */ = {"); StarNot "}";
   Lit (txt "children = ("); StarNot ")"].

Definition frameworks_phase_pattern : regex :=
  [Lit (txt "97C146EB1CF9000F007C117D /* Frameworks */ = {"); StarNot "}";
   Lit (txt "files = ("); StarNot ")"].

Definition build_settings_pattern : regex :=
  [Lit (txt "buildSettings = {"); StarNot "}"; Lit (txt "};")].

Definition ldflags_open : text := txt "OTHER_LDFLAGS = (".

(** The pattern of line 61: an [OTHER_LDFLAGS] list, up to its first
    closing parenthesis, that names [-lfipers]. *)
Definition ldflags_lfipers_pattern : regex :=
  [Lit ldflags_open; StarNot ")"; Lit (txt "-lfipers"); StarNot ")";
   Lit (txt ")")].

(** The pattern of line 75: an [OTHER_LDFLAGS] list up to its first closing
    parenthesis. *)
Definition ldflags_pattern : regex :=
  [Lit ldflags_open; StarNot ")"; Lit (txt ")")].

(** The pattern of line 133: the same list without the parenthesis. *)
Definition ldflags_head_pattern : regex :=
  [Lit ldflags_open; StarNot ")"].

Definition artifact_path : string := "$(PROJECT_DIR)/Frameworks/libfipers.a".

(** The two list entries that force-load the archive, each on a line of its
    own at five tabs. *)
Definition force_load_lines : text :=
  NL :: tabs 5 ++ quoted "-force_load" ++ txt "," ++
  NL :: tabs 5 ++ quoted artifact_path ++ txt ",".

(** The list written over an [OTHER_LDFLAGS] that names [-lfipers]. *)
Definition canonical_ldflags : text :=
  ldflags_open ++ NL :: tabs 5 ++ quoted "$(inherited)" ++ txt "," ++
  force_load_lines ++ NL :: tabs 4 ++ txt ")".

Definition library_search_paths_setting : text :=
  NL :: tabs 4 ++ txt "LIBRARY_SEARCH_PATHS = (" ++
  NL :: tabs 5 ++ quoted "$(inherited)" ++ txt "," ++
  NL :: tabs 5 ++ quoted "$(PROJECT_DIR)/Frameworks" ++ txt "," ++
  NL :: tabs 4 ++ txt ");".

Definition other_ldflags_setting : text :=
  NL :: tabs 4 ++ ldflags_open ++
  NL :: tabs 5 ++ quoted "$(inherited)" ++ txt "," ++
  force_load_lines ++ NL :: tabs 4 ++ txt ");".

(** [update_ldflags], the callback of the already-integrated branch. *)
Definition update_ldflags (segs : list text) : text :=
  let ldflags := group0 segs in
  if negb (contains (txt "-force_load") ldflags)
     && negb (contains (txt "libfipers.a") ldflags)
  then removelast ldflags ++ force_load_lines ++ NL :: tabs 4 ++ txt ")"
  else ldflags.

(** The branch taken when the manifest already names the library
    (lines 56-82). *)
Definition update_link_flags (content : text) : text :=
  let content := re_sub ldflags_lfipers_pattern (fun _ => canonical_ldflags) content in
  if negb (contains (txt "-force_load") content)
     || negb (contains (txt "libfipers.a") content)
  then re_sub ldflags_pattern update_ldflags content
  else content.

Section Records.

(** The identifiers computed by [generate_id] (lines 85-86). *)
Variables file_ref_id build_file_id : text.

Definition file_ref_record : text :=
  tabs 2 ++ file_ref_id ++ txt " /* " ++ library_name ++
  txt " */ = {isa = PBXFileReference; lastKnownFileType = archive.ar; path = " ++
  library_name ++ txt "; sourceTree = " ++ quoted "<group>" ++ txt "; };" ++
  NL :: tabs 2.

Definition file_ref_entry (segs : list text) : text :=
  file_ref_record ++ group0 segs.

Definition frameworks_entry (segs : list text) : text :=
  group0 segs ++ NL :: tabs 4 ++ file_ref_id ++ txt " /* " ++ library_name ++
  txt " */," ++ [NL].

Definition build_file_record : text :=
  tabs 2 ++ build_file_id ++ txt " /* " ++ library_name ++
  txt " in Frameworks */ = {isa = PBXBuildFile; fileRef = " ++ file_ref_id ++
  txt " /* " ++ library_name ++ txt " */; };" ++ NL :: tabs 2.

Definition build_file_entry (segs : list text) : text :=
  build_file_record ++ group0 segs.

Definition frameworks_phase_entry (segs : list text) : text :=
  group0 segs ++ NL :: tabs 4 ++ build_file_id ++ txt " /* " ++ library_name ++
  txt " in Frameworks */," ++ [NL].

Definition add_file_reference : text -> text :=
  re_sub file_ref_pattern file_ref_entry.

Definition add_to_frameworks_group : text -> text :=
  re_sub frameworks_group_pattern frameworks_entry.

Definition add_build_file : text -> text :=
  re_sub build_file_pattern build_file_entry.

Definition add_to_frameworks_phase : text -> text :=
  re_sub frameworks_phase_pattern frameworks_phase_entry.

End Records.

(** The body of [add_library_settings] on [match.group(2)]: [None] when the
    block already has the settings and the match is returned as it is. *)
Definition new_settings (settings_block : text) : option text :=
  if contains (txt "Frameworks") settings_block
     && contains (txt "libfipers") settings_block
  then None
  else
    let s1 :=
      if negb (contains (txt "LIBRARY_SEARCH_PATHS") settings_block)
      then settings_block ++ library_search_paths_setting
      else settings_block in
    let s2 :=
      if negb (contains (txt "OTHER_LDFLAGS") s1)
      then s1 ++ other_ldflags_setting
      else if negb (contains (txt "-force_load") s1)
              && negb (contains (txt "libfipers") s1)
      then re_sub ldflags_head_pattern
             (fun segs => group0 segs ++ force_load_lines) s1
      else s1 in
    Some s2.

Definition add_library_settings (segs : list text) : text :=
  match segs with
  | [g1; g2; g3] =>
      match new_settings g2 with
      | Some s => g1 ++ s ++ g3
      | None => group0 segs
      end
  | _ => group0 segs
  end.

Definition update_build_settings : text -> text :=
  re_sub build_settings_pattern add_library_settings.

(** Lines 84-142: the rewriting of a manifest that does not name the
    library yet. *)
Definition insert_records (file_ref_id build_file_id : text) (content : text)
  : text :=
  let content := add_file_reference file_ref_id content in
  let content := add_to_frameworks_group file_ref_id content in
  let content := add_build_file file_ref_id build_file_id content in
  add_to_frameworks_phase build_file_id content.

Definition integrate_fresh (file_ref_id build_file_id : text) (content : text)
  : text :=
  update_build_settings (insert_records file_ref_id build_file_id content).

(** What one run writes back to the manifest (lines 55-146). *)
Definition patch (file_ref_id build_file_id : text) (content : text) : text :=
  if contains library_name content
  then update_link_flags content
  else integrate_fresh file_ref_id build_file_id content.

End IOS.

(** ** [hashlib.sha1] and [generate_id]

    SHA-1 as in FIPS 180-4, over 32-bit words written as [Z] with the
    wrap-around modulo [2^32] spelled out. *)

Module Hashlib.

#[local] Open Scope Z_scope.

Definition w32 (x : Z) : Z := x mod 2 ^ 32.

Definition rotl (n x : Z) : Z :=
  w32 (Z.lor (Z.shiftl x n) (Z.shiftr x (32 - n))).

(** [str.encode()]: the bytes of the text. *)
Definition encode (t : text) : list Z :=
  map (fun c => Z.of_N (N_of_ascii c)) t.

(** Big-endian bytes of the low [8 * n] bits of [x]. *)
Fixpoint be_bytes (n : nat) (x : Z) : list Z :=
  match n with
  | O => []
  | S n' => Z.shiftr x (8 * Z.of_nat n') mod 256 :: be_bytes n' x
  end.

(** The message followed by the bit 1, zeros up to 56 modulo 64 bytes and
    the bit length on 64 bits. *)
Definition pad (msg : list Z) : list Z :=
  let len := Z.of_nat (length msg) in
  let zeros := Z.to_nat ((55 - len) mod 64) in
  msg ++ 128 :: repeat 0 zeros ++ be_bytes 8 (8 * len).

Fixpoint be_word (bs : list Z) (acc : Z) : Z :=
  match bs with
  | [] => acc
  | b :: bs' => be_word bs' (acc * 256 + b)
  end.

(** Cuts a block of 64 bytes into 16 big-endian words. *)
Fixpoint words (n : nat) (bs : list Z) : list Z :=
  match n with
  | O => []
  | S n' => be_word (firstn 4 bs) 0 :: words n' (skipn 4 bs)
  end.

(** The message schedule, most recent word first. *)
Fixpoint schedule (n : nat) (ws : list Z) : list Z :=
  match n with
  | O => ws
  | S n' =>
      let w := Z.lxor (Z.lxor (nth 2 ws 0) (nth 7 ws 0))
                 (Z.lxor (nth 13 ws 0) (nth 15 ws 0)) in
      schedule n' (rotl 1 w :: ws)
  end.

Record state : Type := State { h0 : Z; h1 : Z; h2 : Z; h3 : Z; h4 : Z }.

Definition round (st : state) (iw : Z * Z) : state :=
  let '(i, w) := iw in
  let '(State a b c d e) := st in
  let '(f, k) :=
    if i <? 20 then
      (Z.lor (Z.land b c) (Z.land (Z.lxor b 4294967295) d), 1518500249)
    else if i <? 40 then (Z.lxor (Z.lxor b c) d, 1859775393)
    else if i <? 60 then
      (Z.lor (Z.lor (Z.land b c) (Z.land b d)) (Z.land c d), 2400959708)
    else (Z.lxor (Z.lxor b c) d, 3395469782) in
  State (w32 (rotl 5 a + f + e + k + w)) a (rotl 30 b) c d.

Definition compress (st : state) (block : list Z) : state :=
  let ws := rev (schedule 64 (rev (words 16 block))) in
  let st' := fold_left round (combine (map Z.of_nat (seq 0 80)) ws) st in
  State (w32 (h0 st + h0 st')) (w32 (h1 st + h1 st')) (w32 (h2 st + h2 st'))
        (w32 (h3 st + h3 st')) (w32 (h4 st + h4 st')).

Fixpoint blocks (n : nat) (bs : list Z) (st : state) : state :=
  match n with
  | O => st
  | S n' => blocks n' (skipn 64 bs) (compress st (firstn 64 bs))
  end.

Definition initial : state :=
  State 1732584193 4023233417 2562383102 271733878 3285377520.

(** [hashlib.sha1(msg).digest()]: 20 bytes. *)
Definition sha1 (msg : list Z) : list Z :=
  let p := pad msg in
  let st := blocks (Nat.div (length p) 64) p initial in
  be_bytes 4 (h0 st) ++ be_bytes 4 (h1 st) ++ be_bytes 4 (h2 st) ++
  be_bytes 4 (h3 st) ++ be_bytes 4 (h4 st).

Definition hex_digit (lower : bool) (n : Z) : ascii :=
  nth (Z.to_nat n)
    (txt (if lower then "0123456789abcdef" else "0123456789ABCDEF"))
    "0"%char.

Definition hex_byte (lower : bool) (b : Z) : text :=
  [hex_digit lower (b / 16); hex_digit lower (b mod 16)].

(** [.hexdigest()]: two lower-case digits a byte. *)
Definition hexdigest (digest : list Z) : text :=
  concat (map (hex_byte true) digest).

(** [str.upper()] on ASCII. *)
Definition upper_char (c : ascii) : ascii :=
  let n := N_of_ascii c in
  if ((97 <=? n) && (n <=? 122))%N then ascii_of_N (n - 32) else c.

Definition upper (t : text) : text := map upper_char t.

End Hashlib.

(** [generate_id] of [integrate_ios_library.py] (lines 14-16). *)
Definition generate_id (t : text) : text :=
  Hashlib.upper
    (firstn 24 (Hashlib.hexdigest (Hashlib.sha1 (Hashlib.encode t)))).

(** The expression the macOS script writes in place (lines 173-174 and
    237-238), for the text [name ++ suffix] that its f-string builds. *)
Definition macos_inline_id (name suffix : text) : text :=
  Hashlib.upper
    (firstn 24
       (Hashlib.hexdigest (Hashlib.sha1 (Hashlib.encode (name ++ suffix))))).

(** ** The manifest rewriting of [integrate_macos_library.py] *)

Module MacOS.

Definition library_name : text := txt "libfipers.dylib".

Definition openssl_lib_names : list text :=
  [txt "libssl.3.dylib"; txt "libcrypto.3.dylib"].

Definition file_ref_pattern : regex :=
  [Lit (txt "/* End PBXFileReference section */")].

Definition build_file_pattern : regex :=
  [Lit (txt "/* End PBXBuildFile section */")].

(** The group pattern of lines 182 and 246, used under [re.DOTALL]. *)
Definition frameworks_group_pattern : regex :=
  [Lit (txt "Frameworks"); StarAny; Lit (txt "= {"); StarNot "}";
   Lit (txt "children = ("); StarNot ")"].

Definition bundle_framework_pattern : regex :=
  [Lit (txt "33CC110E2044A8840003C045 /* Bundle Framework */ = {");
   StarNot "}"; Lit (txt "files = ("); StarNot ")"].

(** The pattern of line 207; its three groups are the first three items,
    the fourth and the fifth. *)
Definition shell_script_pattern : regex :=
  [Lit (txt "3399D490228B24CF009A79C7 /* ShellScript */ = {"); StarNot "}";
   Lit (txt "shellScript = " ++ [DQ]); StarNot DQ; Lit (DQ :: txt ";")].

(** Lines 173-195 and 237-259: the four insertions for the library
    [name]. *)
Definition add_library (name : text) (content : text) : text :=
  let file_ref_id := macos_inline_id name (txt "_file_ref") in
  let build_file_id := macos_inline_id name (txt "_build_file") in
  let content :=
    re_sub file_ref_pattern
      (fun segs =>
         tabs 2 ++ file_ref_id ++ txt " /* " ++ name ++
         txt " */ = {isa = PBXFileReference; lastKnownFileType = " ++
         quoted "compiled.mach-o.dylib" ++ txt "; path = ../Frameworks/" ++
         name ++ txt "; sourceTree = " ++ quoted "<group>" ++ txt "; };" ++
         NL :: tabs 2 ++ group0 segs)
      content in
  let content :=
    if contains (txt "Frameworks") content
    then re_sub frameworks_group_pattern
           (fun segs =>
              group0 segs ++ NL :: tabs 4 ++ file_ref_id ++ txt " /* " ++
              name ++ txt " */," ++ [NL])
           content
    else content in
  let content :=
    re_sub build_file_pattern
      (fun segs =>
         tabs 2 ++ build_file_id ++ txt " /* " ++ name ++
         txt " in Bundle Framework */ = {isa = PBXBuildFile; fileRef = " ++
         file_ref_id ++ txt " /* " ++ name ++ txt " */; };" ++
         NL :: tabs 2 ++ group0 segs)
      content in
  re_sub bundle_framework_pattern
    (fun segs =>
       group0 segs ++ NL :: tabs 4 ++ build_file_id ++ txt " /* " ++ name ++
       txt " in Bundle Framework */," ++ [NL])
    content.

(** Lines 170-195: the OpenSSL libraries the manifest does not name yet. *)
Definition add_openssl_libraries (content : text) : text :=
  fold_left
    (fun content name =>
       if negb (contains name content) then add_library name content
       else content)
    openssl_lib_names content.

Definition bundle_dir : string :=
  "${BUILT_PRODUCTS_DIR}/${WRAPPER_NAME}/Contents/Frameworks/".

Definition change_line (old : string) : text :=
  txt "  install_name_tool -change " ++ quoted old ++ txt " " ++
  quoted "@rpath/libcrypto.3.dylib" ++ txt " " ++
  quoted (bundle_dir ++ "libssl.3.dylib") ++ txt " 2>/dev/null || true" ++
  [NL].

Definition id_lines (lib : string) : text :=
  txt "if [ -f " ++ quoted (bundle_dir ++ lib) ++ txt " ]; then" ++ [NL] ++
  txt "  install_name_tool -id " ++ quoted ("@rpath/" ++ lib) ++ txt " " ++
  quoted (bundle_dir ++ lib) ++ txt " 2>/dev/null || true" ++ [NL].

(** The shell fragment of lines 208-217; it starts with a backslash and the
    letter n. *)
Definition rpath_fix_script : text :=
  txt "\n# Fix OpenSSL rpath in app bundle after copy" ++ [NL] ++
  id_lines "libssl.3.dylib" ++
  change_line "/opt/homebrew/opt/openssl@3/lib/libcrypto.3.dylib" ++
  change_line "/opt/homebrew/Cellar/openssl@3" ++
  change_line "/usr/local/opt/openssl@3/lib/libcrypto.3.dylib" ++
  txt "fi" ++ [NL] ++
  id_lines "libcrypto.3.dylib" ++
  txt "fi".

(** [add_rpath_fix], the callback of line 220. *)
Definition add_rpath_fix (segs : list text) : text :=
  match segs with
  | [a; b; c; existing_script; g3] =>
      if negb (contains (txt "Fix OpenSSL rpath") existing_script)
      then a ++ b ++ c ++ existing_script ++ rpath_fix_script ++ g3
      else group0 segs
  | _ => group0 segs
  end.

Definition add_rpath_fix_script : text -> text :=
  re_sub shell_script_pattern add_rpath_fix.

End MacOS.

(** ** The scripts as programs

    A script runs over a world: the file system, the working directory and
    the lines printed so far, with a log of the changes made to the file
    system.  File permissions, symbolic links and [..] components are not
    modelled; a file operation the operating system would refuse raises. *)

Module Sys.

#[local] Open Scope string_scope.

(** [pathlib.Path]: the components, and whether the path starts at the
    root. *)
Record Path : Type := mkPath { anchored : bool; parts : list string }.

#[export] Instance Path_eq_dec : EqDecision Path.
Proof. solve_decision. Defined.

(** [p / name] *)
Definition div (p : Path) (name : string) : Path :=
  mkPath (anchored p) (parts p ++ [name]).

Infix "</>" := div (at level 40, left associativity).

(** [p.parent] *)
Definition parent (p : Path) : Path :=
  mkPath (anchored p) (removelast (parts p)).

(** [p.name] *)
Definition name (p : Path) : string := List.last (parts p) "".

(** [str(p)] *)
Definition str (p : Path) : string :=
  match anchored p, parts p with
  | false, [] => "."
  | false, ps => String.concat "/" ps
  | true, ps => "/" ++ String.concat "/" ps
  end.

(** [Path(str(p) + suffix)], for a path with a last component. *)
Definition add_suffix (p : Path) (suffix : string) : Path :=
  mkPath (anchored p) (removelast (parts p) ++ [name p ++ suffix]).

Inductive node : Type :=
| File (content : text)
| Dir.

(** A change made to the file system, at resolved locations. *)
Inductive event : Type :=
| Mkdir (at_ : list string)
| Copy (src dst : list string)
| Write (at_ : list string) (content : text)
| Unlink (at_ : list string)
| Spawn (argv : list string).

Record world : Type := mkWorld {
  files : gmap (list string) node;
  cwd : list string;
  console : list string;
  log : list event
}.

(** [subprocess.CompletedProcess] *)
Record completed : Type := mkCompleted {
  returncode : Z;
  stdout : text;
  stderr : text
}.

(** How a call ends: with a value, by [sys.exit], or by an exception. *)
Inductive result (A : Type) : Type :=
| Val (a : A)
| Exit (code : Z)
| Raise (exn : string).

Arguments Val {A} a.
Arguments Exit {A} code.
Arguments Raise {A} exn.

Definition M (A : Type) : Type := world -> result A * world.

Definition ret {A : Type} (a : A) : M A := fun w => (Val a, w).

Definition bind {A B : Type} (m : M A) (k : A -> M B) : M B :=
  fun w =>
    match m w with
    | (Val a, w') => k a w'
    | (Exit c, w') => (Exit c, w')
    | (Raise e, w') => (Raise e, w')
    end.

Notation "'do' x <- m ; k" := (bind m (fun x => k))
  (at level 10, x name, m at level 100, k at level 200).
Notation "m ;; k" := (bind m (fun _ => k))
  (at level 100, k at level 200, right associativity).

Definition sys_exit {A : Type} (code : Z) : M A := fun w => (Exit code, w).
Definition raise {A : Type} (exn : string) : M A := fun w => (Raise exn, w).

(** [try: m except Exception as e: handler e]; [sys.exit] passes
    through. *)
Definition try_except (m : M unit) (handler : string -> M unit) : M unit :=
  fun w =>
    match m w with
    | (Raise e, w') => handler e w'
    | r => r
    end.

(** The exit status of the process. *)
Definition exit_status {A : Type} (r : result A) : Z :=
  match r with
  | Val _ => 0
  | Exit c => c
  | Raise _ => 1
  end.

Definition print (line : string) : M unit :=
  fun w => (Val tt, mkWorld (files w) (cwd w) (console w ++ [line]) (log w)).

(** Where a path points, from the working directory. *)
Definition locate (w : world) (p : Path) : list string :=
  if anchored p then parts p else (cwd w ++ parts p)%list.

(** The root is a directory of every file system. *)
Definition node_at (fs : gmap (list string) node) (l : list string)
  : option node :=
  match l with
  | [] => Some Dir
  | _ => fs !! l
  end.

Definition is_dir_at (fs : gmap (list string) node) (l : list string) : bool :=
  match node_at fs l with
  | Some Dir => true
  | _ => false
  end.

Definition change (w : world) (fs : gmap (list string) node) (e : event)
  : world :=
  mkWorld fs (cwd w) (console w) (log w ++ [e]).

(** [Path.cwd()] *)
Definition getcwd : M Path := fun w => (Val (mkPath true (cwd w)), w).

(** [p.exists()] *)
Definition exists_ (p : Path) : M bool :=
  fun w =>
    (Val (match node_at (files w) (locate w p) with
          | Some _ => true
          | None => false
          end), w).

(** [p.mkdir(exist_ok=True)] *)
Definition mkdir_exist_ok (p : Path) : M unit :=
  fun w =>
    let l := locate w p in
    match node_at (files w) l with
    | Some Dir => (Val tt, w)
    | Some (File _) => (Raise "FileExistsError", w)
    | None =>
        if is_dir_at (files w) (removelast l)
        then (Val tt, change w (<[l := Dir]> (files w)) (Mkdir l))
        else (Raise "FileNotFoundError", w)
    end.

(** [open(p, 'w')] followed by [write(content)] *)
Definition write_text (p : Path) (content : text) : M unit :=
  fun w =>
    let l := locate w p in
    match node_at (files w) l with
    | Some Dir => (Raise "IsADirectoryError", w)
    | _ =>
        if is_dir_at (files w) (removelast l)
        then (Val tt, change w (<[l := File content]> (files w)) (Write l content))
        else (Raise "FileNotFoundError", w)
    end.

(** [open(p, 'r')] followed by [read()], and [p.read_text()] *)
Definition read_text (p : Path) : M text :=
  fun w =>
    match node_at (files w) (locate w p) with
    | Some (File c) => (Val c, w)
    | Some Dir => (Raise "IsADirectoryError", w)
    | None => (Raise "FileNotFoundError", w)
    end.

(** [shutil.copy2(src, dst)]: into [dst] when it is a directory. *)
Definition copy2 (src dst : Path) : M unit :=
  fun w =>
    let s := locate w src in
    match node_at (files w) s with
    | Some (File c) =>
        let d := if is_dir_at (files w) (locate w dst)
                 then (locate w dst ++ [name src])%list else locate w dst in
        if bool_decide (s = d) then (Raise "SameFileError", w)
        else if is_dir_at (files w) d then (Raise "IsADirectoryError", w)
        else if is_dir_at (files w) (removelast d)
        then (Val tt, change w (<[d := File c]> (files w)) (Copy s d))
        else (Raise "FileNotFoundError", w)
    | Some Dir => (Raise "IsADirectoryError", w)
    | None => (Raise "FileNotFoundError", w)
    end.

(** [p.unlink()] *)
Definition unlink (p : Path) : M unit :=
  fun w =>
    let l := locate w p in
    match node_at (files w) l with
    | Some (File _) => (Val tt, change w (delete l (files w)) (Unlink l))
    | Some Dir => (Raise "IsADirectoryError", w)
    | None => (Raise "FileNotFoundError", w)
    end.

Definition show (t : text) : string := string_of_list_ascii t.

Section Scripts.

(** [subprocess.run(argv, cwd=dir)]: what the external program does to the
    file system and what it returns, or the exception raised when it cannot
    be started. *)
Variable run_process :
  list string -> option (list string) -> gmap (list string) node ->
  completed * gmap (list string) node + string.

Definition subprocess_run (argv : list string) (dir : option Path)
  : M completed :=
  fun w =>
    match run_process argv (option_map (locate w) dir) (files w) with
    | inl (c, fs) => (Val c, change w fs (Spawn argv))
    | inr e => (Raise e, w)
    end.

(** *** [integrate_ios_library.py] *)

(** The identifiers of lines 85-86: [generate_id] of the library name
    followed by the role. *)
Definition ios_file_ref_id : text :=
  generate_id (IOS.library_name ++ txt "_file_ref")%list.

Definition ios_build_file_id : text :=
  generate_id (IOS.library_name ++ txt "_build_file")%list.

Definition ios_success_line : string :=
  "✅ Successfully integrated libfipers.a into Xcode project!".

Definition ios_updated_line : string :=
  "✅ Updated link flags to use -force_load".

(** Lines 50-158 of [integrate_library]: from the backup on, with the
    manifest text just read. *)
Definition ios_rewrite_manifest (xcode_project dest_library : Path)
    (content : text) : M bool :=
  let backup_path := add_suffix xcode_project ".backup" in
  copy2 xcode_project backup_path;;
  print ("✅ Created backup: " ++ str backup_path);;
  if contains IOS.library_name content then
    print "⚠️  Library already integrated, updating link flags to use -force_load...";;
    write_text xcode_project (IOS.update_link_flags content);;
    print ios_updated_line;;
    ret true
  else
    write_text xcode_project
      (IOS.integrate_fresh ios_file_ref_id ios_build_file_id content);;
    print ios_success_line;;
    print (String NL "The library has been:");;
    print ("  1. Copied to " ++ str dest_library);;
    print "  2. Added to Xcode project file references";;
    print "  3. Added to Frameworks group";;
    print "  4. Added to Link Binary With Libraries build phase";;
    print "  5. Added library search paths and link flags to build settings";;
    print (String NL "You can now build your Flutter iOS app with:");;
    print "  flutter build ios";;
    ret true.

(** [integrate_library] of the iOS script (lines 18-158). *)
Definition ios_integrate_library (project_root library_path : Path) : M bool :=
  let ios_dir := project_root </> "ios" in
  let library_name := "libfipers.a" in
  let frameworks_dir := ios_dir </> "Frameworks" in
  let xcode_project := ios_dir </> "Runner.xcodeproj" </> "project.pbxproj" in
  do b <- exists_ ios_dir;
  if negb b then
    print "Error: iOS directory not found";; ret false
  else
  do b <- exists_ xcode_project;
  if negb b then
    print ("Error: Xcode project not found at " ++ str xcode_project);;
    ret false
  else
  do b <- exists_ library_path;
  if negb b then
    print ("Error: Library not found at " ++ str library_path);; ret false
  else
  mkdir_exist_ok frameworks_dir;;
  let dest_library := frameworks_dir </> library_name in
  copy2 library_path dest_library;;
  print ("✅ Copied library to " ++ str dest_library);;
  do content <- read_text xcode_project;
  ios_rewrite_manifest xcode_project dest_library content.

(** [main] of the iOS script; [script] is [__file__]. *)
Definition ios_main (script : Path) : M unit :=
  let script_dir := parent script in
  let fipers_root := parent script_dir in
  do current_dir <- getcwd;
  do has_pubspec <- exists_ (current_dir </> "pubspec.yaml");
  do has_ios <- (if has_pubspec then exists_ (current_dir </> "ios")
                 else ret false);
  do project_root <-
    (if has_pubspec && has_ios then ret current_dir
     else
       do has_example <- exists_ (fipers_root </> "example" </> "pubspec.yaml");
       if has_example then ret (fipers_root </> "example")
       else
         print "Error: This script must be run from a Flutter project root";;
         print "Usage: Run from Flutter project root (e.g., fipers/example)";;
         sys_exit 1);
  print ("Using Flutter project: " ++ str project_root);;
  print "Building iOS library...";;
  let build_script := script_dir </> "build.sh" in
  do has_build <- exists_ build_script;
  (if has_build then
     do r <- subprocess_run [str build_script; "ios"; "Release"]
               (Some fipers_root);
     if negb (returncode r =? 0)%Z then
       print ("Error building library: " ++ show (stderr r));; sys_exit 1
     else ret tt
   else
     print "Warning: build.sh not found, assuming library is already built");;
  let library_path := fipers_root </> "ios" </> "build" </> "libfipers.a" in
  do has_library <- exists_ library_path;
  (if negb has_library then
     print ("Error: Library not found at " ++ str library_path);;
     print "Please build the library first: ./scripts/build.sh ios Release";;
     sys_exit 1
   else ret tt);;
  do success <- ios_integrate_library project_root library_path;
  if negb success then sys_exit 1 else ret tt.

(** *** [integrate_macos_library.py] *)

Definition homebrew_openssl : list (Path * string) :=
  [(mkPath true ["opt"; "homebrew"; "opt"; "openssl@3"; "lib"; "libssl.3.dylib"],
    "libssl.3.dylib");
   (mkPath true ["opt"; "homebrew"; "opt"; "openssl@3"; "lib"; "libcrypto.3.dylib"],
    "libcrypto.3.dylib")].

Definition usr_local_openssl : list (Path * string) :=
  [(mkPath true ["usr"; "local"; "opt"; "openssl@3"; "lib"; "libssl.3.dylib"],
    "libssl.3.dylib");
   (mkPath true ["usr"; "local"; "opt"; "openssl@3"; "lib"; "libcrypto.3.dylib"],
    "libcrypto.3.dylib")].

(** The loop of lines 54-65. *)
Fixpoint copy_openssl (libs : list (Path * string)) (frameworks_dir : Path)
  : M (list Path) :=
  match libs with
  | [] => ret []
  | (src, dest_name) :: rest =>
      do found <- exists_ src;
      do copied <-
        (if found then
           let dest := frameworks_dir </> dest_name in
           do old <- exists_ dest;
           (if old then unlink dest else ret tt);;
           copy2 src dest;;
           print ("✅ Copied " ++ dest_name ++ " to " ++ str dest);;
           ret [dest]
         else
           print ("⚠️  OpenSSL library not found at " ++ str src);;
           ret []);
      do more <- copy_openssl rest frameworks_dir;
      ret (copied ++ more)%list
  end.

Definition from_prefix (line : text) : bool :=
  contains (txt "/opt/homebrew") line || contains (txt "/usr/local") line.

(** The loop of lines 77-94 over the lines of [otool -L]. *)
Fixpoint fix_library_lines (dest : Path) (lines : list text)
    (needs_fix : bool) : M bool :=
  match lines with
  | [] => ret needs_fix
  | line :: rest =>
      if from_prefix line
         && (contains (txt "libssl") line || contains (txt "libcrypto") line)
      then
        let old_path := first_word line in
        (if contains (txt "libssl") line then
           subprocess_run
             ["install_name_tool"; "-change"; show old_path;
              "@rpath/libssl.3.dylib"; str dest] None;;
           ret tt
         else if contains (txt "libcrypto") line then
           subprocess_run
             ["install_name_tool"; "-change"; show old_path;
              "@rpath/libcrypto.3.dylib"; str dest] None;;
           ret tt
         else ret tt);;
        fix_library_lines dest rest true
      else fix_library_lines dest rest needs_fix
  end.

(** The body of the [try] of lines 69-104. *)
Definition fix_library_rpath (dest_library : Path) : M unit :=
  do r <- subprocess_run ["otool"; "-L"; str dest_library] None;
  if (returncode r =? 0)%Z then
    do needs_fix <- fix_library_lines dest_library (split_on NL (stdout r)) false;
    if needs_fix then
      subprocess_run ["codesign"; "--sign"; "-"; "--force"; str dest_library]
        None;;
      print "✅ Fixed library rpath and re-signed"
    else print "✅ Library rpath is correct"
  else ret tt.

(** The loop of lines 118-143 for one copied OpenSSL library. *)
Fixpoint fix_openssl_lines (lib : Path) (lines : list text) (modified : bool)
  : M bool :=
  match lines with
  | [] => ret modified
  | line :: rest =>
      if bool_decide (strip line = [])
         || starts_with (txt (name lib)) (strip line)
      then fix_openssl_lines lib rest modified
      else if contains (txt "libssl") (txt (name lib)) && from_prefix line
              && contains (txt "libcrypto") line
      then
        let old_path := first_word line in
        if negb (bool_decide (old_path = txt "@rpath/libcrypto.3.dylib")) then
          subprocess_run
            ["install_name_tool"; "-change"; show old_path;
             "@rpath/libcrypto.3.dylib"; str lib] None;;
          fix_openssl_lines lib rest true
        else fix_openssl_lines lib rest modified
      else if from_prefix line
              && contains (hd [] (split_on "." (txt (name lib)))) line
      then
        let old_path := first_word line in
        let new_name := name lib in
        if negb (bool_decide (old_path = txt ("@rpath/" ++ new_name))) then
          subprocess_run
            ["install_name_tool"; "-id"; "@rpath/" ++ new_name; str lib] None;;
          fix_openssl_lines lib rest true
        else fix_openssl_lines lib rest modified
      else fix_openssl_lines lib rest modified
  end.

(** The body of the [try] of lines 110-150. *)
Definition fix_openssl_rpath (lib : Path) : M unit :=
  do r <- subprocess_run ["otool"; "-L"; str lib] None;
  if (returncode r =? 0)%Z then
    do modified <- fix_openssl_lines lib (split_on NL (stdout r)) false;
    if modified then
      subprocess_run ["codesign"; "--sign"; "-"; "--force"; str lib] None;;
      ret tt
    else ret tt
  else ret tt.

Fixpoint fix_openssl_rpaths (libs : list Path) : M unit :=
  match libs with
  | [] => ret tt
  | lib :: rest =>
      try_except (fix_openssl_rpath lib)
        (fun e => print ("⚠️  Could not fix rpath in " ++ name lib ++ ": " ++ e));;
      fix_openssl_rpaths rest
  end.

(** Lines 157-265: the manifest, once it is known to exist. *)
Definition macos_patch_manifest (xcode_project : Path) : M unit :=
  do content <- read_text xcode_project;
  let backup_path := add_suffix xcode_project ".backup" in
  copy2 xcode_project backup_path;;
  print ("✅ Created backup: " ++ str backup_path);;
  let content := MacOS.add_openssl_libraries content in
  if contains MacOS.library_name content then
    print "⚠️  Library already in Xcode project, updating OpenSSL libraries...";;
    write_text xcode_project content;;
    print "✅ Added OpenSSL libraries to Xcode project";;
    if negb (contains (txt "Fix OpenSSL rpath") content) then
      write_text xcode_project (MacOS.add_rpath_fix_script content);;
      print "✅ Added rpath fix script to build phase"
    else ret tt
  else
    write_text xcode_project (MacOS.add_library MacOS.library_name content);;
    print "✅ Added libfipers.dylib to Xcode project".

Definition macos_success_line : string :=
  String NL "✅ Successfully integrated libfipers.dylib into macOS project!".

Definition macos_integrate_library (project_root library_path : Path)
  : M bool :=
  let macos_dir := project_root </> "macos" in
  let library_name := "libfipers.dylib" in
  let frameworks_dir := macos_dir </> "Frameworks" in
  do b <- exists_ macos_dir;
  if negb b then
    print "Error: macOS directory not found";; ret false
  else
  do b <- exists_ library_path;
  if negb b then
    print ("Error: Library not found at " ++ str library_path);; ret false
  else
  mkdir_exist_ok frameworks_dir;;
  let dest_library := frameworks_dir </> library_name in
  do old <- exists_ dest_library;
  (if old then unlink dest_library else ret tt);;
  copy2 library_path dest_library;;
  print ("✅ Copied library to " ++ str dest_library);;
  do homebrew <- exists_ (fst (hd (mkPath true [], "") homebrew_openssl));
  let openssl_libs :=
    if negb homebrew then usr_local_openssl else homebrew_openssl in
  do copied_openssl <- copy_openssl openssl_libs frameworks_dir;
  try_except (fix_library_rpath dest_library)
    (fun e => print ("⚠️  Could not fix library rpath: " ++ e));;
  fix_openssl_rpaths copied_openssl;;
  let xcode_project := macos_dir </> "Runner.xcodeproj" </> "project.pbxproj" in
  do has_manifest <- exists_ xcode_project;
  (if has_manifest then macos_patch_manifest xcode_project else ret tt);;
  print macos_success_line;;
  print (String NL "The library has been:");;
  print ("  1. Copied to " ++ str dest_library);;
  print "  2. Fixed rpath for OpenSSL dependencies";;
  print "  3. Added to Xcode project Bundle Framework build phase";;
  print (String NL "You can now build your Flutter macOS app with:");;
  print "  flutter build macos";;
  ret true.

(** [main] of the macOS script; [script] is [__file__]. *)
Definition macos_main (script : Path) : M unit :=
  let script_dir := parent script in
  let fipers_root := parent script_dir in
  do current_dir <- getcwd;
  do has_pubspec <- exists_ (current_dir </> "pubspec.yaml");
  do has_macos <- (if has_pubspec then exists_ (current_dir </> "macos")
                   else ret false);
  do project_root <-
    (if has_pubspec && has_macos then ret current_dir
     else
       do has_example <- exists_ (fipers_root </> "example" </> "pubspec.yaml");
       if has_example then ret (fipers_root </> "example")
       else
         print "Error: This script must be run from a Flutter project root";;
         print "Usage: Run from Flutter project root (e.g., fipers/example)";;
         sys_exit 1);
  print ("Using Flutter project: " ++ str project_root);;
  print "Building macOS library...";;
  let build_script := script_dir </> "build.sh" in
  do has_build <- exists_ build_script;
  (if has_build then
     do r <- subprocess_run [str build_script; "macos"; "Release"]
               (Some fipers_root);
     if negb (returncode r =? 0)%Z then
       print ("Error building library: " ++ show (stderr r));; sys_exit 1
     else ret tt
   else
     print "Warning: build.sh not found, assuming library is already built");;
  let library_path :=
    fipers_root </> "macos" </> "build" </> "libfipers.dylib" in
  do has_library <- exists_ library_path;
  (if negb has_library then
     print ("Error: Library not found at " ++ str library_path);;
     print "Please build the library first: ./scripts/build.sh macos Release";;
     sys_exit 1
   else ret tt);;
  do success <- macos_integrate_library project_root library_path;
  if negb success then sys_exit 1 else ret tt.

(** *** [integrate_android_library.py] *)

(** The loop of [find_flutter_project_root] (lines 30-36): up the parents
    until a directory holds [pubspec.yaml] or the path is its own parent. *)
Fixpoint find_up (fuel : nat) (current : Path) : M (option Path) :=
  match fuel with
  | O => ret None
  | S fuel' =>
      if bool_decide (current = parent current) then ret None
      else
        do found <- exists_ (current </> "pubspec.yaml");
        if found then ret (Some current)
        else find_up fuel' (parent current)
  end.

(** Called without a start path: from [Path.cwd()], which is resolved. *)
Definition find_flutter_project_root : M (option Path) :=
  do start <- getcwd;
  find_up (S (length (parts start))) start.

Definition check_openssl_for_android : M bool :=
  print "⚠️  Note: Android requires OpenSSL to be built separately.";;
  print "   The CMakeLists.txt will attempt to find OpenSSL.";;
  print "   If OpenSSL is not found, the build will fail with instructions.";;
  ret true.

Definition verify_cmake_integration (project_root : Path) : M bool :=
  let build_gradle := project_root </> "android" </> "app" </> "build.gradle.kts" in
  do found <- exists_ build_gradle;
  if negb found then
    print ("❌ build.gradle.kts not found at " ++ str build_gradle);;
    ret false
  else
    do content <- read_text build_gradle;
    if negb (contains (txt "externalNativeBuild") content)
       || negb (contains (txt "cmake") content)
    then
      print "⚠️  CMake integration not found in build.gradle.kts";;
      print "   The script will add it, but you may need to rebuild.";;
      ret false
    else
      print "✅ CMake integration found in build.gradle.kts";;
      ret true.

(** Lines 100-117, after [fipers_root] has been settled. *)
Definition android_check (project_root : Path) (fipers_root : option Path)
  : M unit :=
  do has_cmake <-
    (match fipers_root with
     | Some root => exists_ (root </> "android" </> "CMakeLists.txt")
     | None => ret false
     end);
  match fipers_root, has_cmake with
  | Some root, true =>
      print ("📦 fipers root: " ++ str root);;
      check_openssl_for_android;;
      verify_cmake_integration project_root;;
      print (String NL "✅ Android library integration check complete!");;
      print (String NL "📝 Next steps:");;
      print "   1. Ensure OpenSSL is built for Android (see README.md)";;
      print "   2. Run: flutter build apk --debug";;
      print "   3. The library should be automatically built and included in the APK"
  | _, _ =>
      print "⚠️  Could not find fipers root with android/CMakeLists.txt";;
      print "   Make sure you're running this from the correct directory."
  end.

(** [main] of the Android script; [argv1] is [sys.argv[1]] when given. *)
Definition android_main (argv1 : option Path) : M unit :=
  do found <-
    (match argv1 with
     | Some p => ret (Some p)
     | None => find_flutter_project_root
     end);
  match found with
  | None =>
      print "❌ Error: Could not find Flutter project root (pubspec.yaml not found)";;
      print "   Please run this script from your Flutter project directory";;
      print "   or provide the project root as an argument.";;
      sys_exit 1
  | Some project_root =>
      print ("📁 Flutter project root: " ++ str project_root);;
      let fipers_root := parent project_root in
      do in_repo <- exists_ (fipers_root </> "lib" </> "fipers.dart");
      if in_repo then android_check project_root (Some fipers_root)
      else
        do has_gradle <-
          exists_ (project_root </> "android" </> "app" </> "build.gradle.kts");
        if has_gradle then
          let pubspec := project_root </> "pubspec.yaml" in
          do has_pubspec <- exists_ pubspec;
          if has_pubspec then
            do content <- read_text pubspec;
            if contains (txt "fipers:") content then
              print "ℹ️  fipers is a dependency. CMakeLists.txt should be configured in the package.";;
              print "   Make sure the fipers package includes Android CMakeLists.txt integration."
            else android_check project_root None
          else android_check project_root None
        else android_check project_root (Some fipers_root)
  end.

End Scripts.

End Sys.

(** ** Vocabulary of the statements about the scripts *)

Module SysSpec.
Import Sys.

#[local] Open Scope string_scope.

(** The world after some more lines have been printed. *)
Definition printed (w : world) (lines : list string) : world :=
  mkWorld (files w) (cwd w) (console w ++ lines) (log w).

(** The lines a run has printed are those of [console] after the ones that
    were there. *)
Definition says (w w' : world) (lines : list string) : Prop :=
  console w' = (console w ++ lines)%list.

(** The changes a run has made are those of [log] after the ones that were
    there. *)
Definition does (w w' : world) (evs : list event) : Prop :=
  log w' = (log w ++ evs)%list.

(** A computation that leaves the file system as it found it: no file
    written, created or removed, no program started. *)
Definition read_only {A : Type} (m : M A) : Prop :=
  forall w, files (snd (m w)) = files w /\ log (snd (m w)) = log w
            /\ cwd (snd (m w)) = cwd w.

(** No line of [lines] reports that the iOS integration succeeded. *)
Definition quiet (lines : list string) : Prop :=
  ~ In ios_success_line lines /\ ~ In ios_updated_line lines.

(** Where the iOS script finds the project's [ios] directory and its
    manifest, for the project at [root]. *)
Definition ios_dir_of (w : world) (root : Path) : list string :=
  locate w (root </> "ios").

Definition ios_manifest_of (w : world) (root : Path) : list string :=
  (ios_dir_of w root ++ ["Runner.xcodeproj"; "project.pbxproj"])%list.

(** The library the iOS script looks for, from where the script is. *)
Definition ios_library_of (script : Path) : Path :=
  parent (parent script) </> "ios" </> "build" </> "libfipers.a".

(** The diagnostics of the iOS script. *)
Inductive ios_diagnostic : string -> Prop :=
| diag_no_project :
    ios_diagnostic "Error: This script must be run from a Flutter project root"
| diag_build (c : completed) :
    returncode c <> 0%Z ->
    ios_diagnostic ("Error building library: " ++ show (stderr c))
| diag_no_library (lib : Path) :
    ios_diagnostic ("Error: Library not found at " ++ str lib)
| diag_no_ios_dir :
    ios_diagnostic "Error: iOS directory not found"
| diag_no_manifest (root : Path) :
    ios_diagnostic
      ("Error: Xcode project not found at " ++
       str (root </> "ios" </> "Runner.xcodeproj" </> "project.pbxproj")).

(** How a run of the iOS script can end, with the lines it printed. *)
Definition ios_outcome (script : Path) (r : result unit) (w' : world)
    (lines : list string) : Prop :=
  (r = Exit 1 /\ quiet lines /\ exists d, In d lines /\ ios_diagnostic d)
  \/ (exists e, r = Raise e /\ quiet lines)
  \/ (r = Val tt
      /\ (In ios_success_line lines \/ In ios_updated_line lines)
      /\ exists root w1,
           ios_integrate_library root (ios_library_of script) w1
           = (Val true, w')).

(** The build step did not fail: there is no [build.sh] beside the script,
    or it returned 0. *)
Definition ios_build_ok
    (run_process :
       list string -> option (list string) -> gmap (list string) node ->
       completed * gmap (list string) node + string)
    (script : Path) (w : world) : Prop :=
  node_at (files w) (locate w (parent script </> "build.sh")) = None
  \/ exists c fs,
       run_process [str (parent script </> "build.sh"); "ios"; "Release"]
         (Some (locate w (parent (parent script)))) (files w) = inl (c, fs)
       /\ returncode c = 0%Z.

End SysSpec.

(** ** Worlds and manifests of the examples *)

Module Examples.
Import Sys.

(** No external program can be started. *)
Definition no_programs :
  list string -> option (list string) -> gmap (list string) node ->
  completed * gmap (list string) node + string :=
  fun _ _ _ => inr "FileNotFoundError: No such file or directory"%string.

(** A manifest with one build-settings block that lists linker flags. *)
Definition small_manifest : text :=
  txt "/* Begin PBXBuildFile section */" ++ [NL] ++
  txt "/* End PBXBuildFile section */" ++ [NL] ++
  txt "/* Begin PBXFileReference section */" ++ [NL] ++
  txt "/* End PBXFileReference section */" ++ [NL] ++
  txt "buildSettings = {" ++ [NL] ++
  txt "OTHER_LDFLAGS = (" ++ [NL] ++
  quoted "$(inherited)" ++ txt "," ++ [NL] ++
  quoted "-ObjC" ++ txt "," ++ [NL] ++
  txt ");" ++ [NL] ++
  txt "};" ++ [NL].

(** A Flutter project at [/proj] with an iOS and a macOS side, and the
    fipers checkout with both libraries built at [/fipers]. *)
Definition project_files (manifest : text) : gmap (list string) node :=
  list_to_map
    [ (["proj"], Dir); (["proj"; "pubspec.yaml"], File (txt "name: demo"));
      (["proj"; "ios"], Dir); (["proj"; "ios"; "Runner.xcodeproj"], Dir);
      (["proj"; "ios"; "Runner.xcodeproj"; "project.pbxproj"], File manifest);
      (["proj"; "macos"], Dir);
      (["fipers"], Dir); (["fipers"; "scripts"], Dir);
      (["fipers"; "ios"], Dir); (["fipers"; "ios"; "build"], Dir);
      (["fipers"; "ios"; "build"; "libfipers.a"], File (txt "!<arch>"));
      (["fipers"; "macos"], Dir); (["fipers"; "macos"; "build"], Dir);
      (["fipers"; "macos"; "build"; "libfipers.dylib"], File (txt "dylib")) ]%string.

Definition project_world (manifest : text) : world :=
  mkWorld (project_files manifest) ["proj"%string] [] [].

Definition proj : Path := mkPath true ["proj"%string].
Definition ios_script : Path :=
  mkPath true ["fipers"; "scripts"; "integrate_ios_library.py"]%string.
Definition macos_script : Path :=
  mkPath true ["fipers"; "scripts"; "integrate_macos_library.py"]%string.
Definition ios_library : Path :=
  mkPath true ["fipers"; "ios"; "build"; "libfipers.a"]%string.

End Examples.

(** * Facts about texts *)

Lemma ascii_eqb_true (a b : ascii) : Ascii.eqb a b = true <-> a = b.
Proof. apply Ascii.eqb_eq. Qed.

Lemma starts_with_prefix (p s : text) :
  starts_with p s = true <-> exists r, s = p ++ r.
Proof.
  revert s; induction p as [|a p IH]; intros s; simpl.
  - split; [intros _; now exists s | reflexivity].
  - destruct s as [|b s].
    + split; [discriminate | intros [r Hr]; discriminate].
    + rewrite andb_true_iff, Ascii.eqb_eq, IH. split.
      * intros [-> [r ->]]. now exists r.
      * intros [r Hr]. injection Hr as -> ->. split; [reflexivity | now exists r].
Qed.

Lemma starts_with_app (p r : text) : starts_with p (p ++ r) = true.
Proof. apply starts_with_prefix. now exists r. Qed.

Lemma strip_prefix_some (p s r : text) :
  strip_prefix p s = Some r <-> s = p ++ r.
Proof.
  revert s; induction p as [|a p IH]; intros s; simpl.
  - split; [now intros [= ->] | now intros ->].
  - destruct s as [|b s]; [split; discriminate|].
    destruct (Ascii.eqb_spec a b) as [->|Hne].
    + rewrite IH. split; [now intros -> | now intros [= ->]].
    + split; [discriminate | intros [= <- _]; congruence].
Qed.

Lemma strip_prefix_starts (p s : text) :
  strip_prefix p s = None <-> starts_with p s = false.
Proof.
  revert s; induction p as [|a p IH]; intros s; simpl.
  - split; discriminate.
  - destruct s as [|b s]; [tauto|].
    destruct (Ascii.eqb_spec a b); simpl; [apply IH | tauto].
Qed.

Lemma contains_occurs (p s : text) :
  contains p s = true <-> exists a b, s = a ++ p ++ b.
Proof.
  induction s as [|x s IH]; simpl.
  - rewrite starts_with_prefix. split.
    + intros [r Hr]. exists [], r. exact Hr.
    + intros [a [b H]]. destruct a; [|discriminate]. now exists b.
  - rewrite orb_true_iff, starts_with_prefix, IH. split.
    + intros [[r Hr] | [a [b H]]].
      * exists [], r. exact Hr.
      * exists (x :: a), b. now rewrite H.
    + intros [a [b H]]. destruct a as [|y a].
      * left. now exists b.
      * right. injection H as -> ->. now exists a, b.
Qed.

Lemma contains_app_l (p a b : text) :
  contains p a = true -> contains p (a ++ b) = true.
Proof.
  rewrite !contains_occurs. intros [u [v ->]].
  exists u, (v ++ b). now rewrite <- !app_assoc.
Qed.

Lemma contains_app_r (p a b : text) :
  contains p b = true -> contains p (a ++ b) = true.
Proof.
  rewrite !contains_occurs. intros [u [v ->]].
  exists (a ++ u), v. now rewrite <- !app_assoc.
Qed.

Lemma contains_cons (p : text) (x : ascii) (s : text) :
  contains p s = true -> contains p (x :: s) = true.
Proof. intros H. apply (contains_app_r p [x] s H). Qed.

Lemma contains_self_app (p a b : text) : contains p (a ++ p ++ b) = true.
Proof. apply contains_occurs. now exists a, b. Qed.

(** A text without the first character of [p] cannot hold [p]. *)
Lemma starts_with_head (c : ascii) (p : text) (x : ascii) (s : text) :
  x <> c -> starts_with (c :: p) (x :: s) = false.
Proof.
  intros H. simpl. destruct (Ascii.eqb_spec c x); [congruence | reflexivity].
Qed.

(** * Facts about matching *)

Lemma star_inv {A : Type} (ok : ascii -> bool) (k : text -> option A)
    (s seg : text) (a : A) :
  star ok k s = Some (seg, a) ->
  exists s', s = seg ++ s' /\ k s' = Some a /\ forallb ok seg = true.
Proof.
  revert seg a; induction s as [|x s IH]; intros seg a; simpl.
  - destruct (k []) eqn:E; simpl; [|discriminate].
    intros [= <- <-]. now exists [].
  - assert (Hstop : option_map (pair []) (k (x :: s)) = Some (seg, a) ->
                    exists s', x :: s = seg ++ s' /\ k s' = Some a
                               /\ forallb ok seg = true).
    { destruct (k (x :: s)) eqn:E; simpl; [|discriminate].
      intros [= <- <-]. now exists (x :: s). }
    destruct (ok x) eqn:Hx; [|exact Hstop].
    destruct (star ok k s) as [[seg' a']|] eqn:E; [|exact Hstop].
    intros [= <- <-]. destruct (IH _ _ eq_refl) as [s' [-> [Hk Hall]]].
    exists s'. simpl. now rewrite Hx.
Qed.

Lemma match_here_sound (r : regex) (s : text) (segs : list text) (rest : text) :
  match_here r s = Some (segs, rest) ->
  s = concat segs ++ rest /\ length segs = length r.
Proof.
  revert s segs rest; induction r as [|a r IH]; intros s segs rest; simpl.
  - now intros [= <- <-].
  - destruct a as [l | c | ].
    + destruct (strip_prefix l s) as [s'|] eqn:E; [|discriminate].
      apply strip_prefix_some in E. subst s.
      destruct (match_here r s') as [[segs' rest']|] eqn:E'; simpl; [|discriminate].
      intros [= <- <-]. destruct (IH _ _ _ E') as [-> Hlen].
      simpl. rewrite <- app_assoc. auto.
    + destruct (star _ _ s) as [[seg [segs' rest']]|] eqn:E; simpl; [|discriminate].
      intros [= <- <-]. apply star_inv in E as [s' [-> [Hk _]]].
      destruct (IH _ _ _ Hk) as [-> Hlen]. simpl. rewrite <- app_assoc. auto.
    + destruct (star _ _ s) as [[seg [segs' rest']]|] eqn:E; simpl; [|discriminate].
      intros [= <- <-]. apply star_inv in E as [s' [-> [Hk _]]].
      destruct (IH _ _ _ Hk) as [-> Hlen]. simpl. rewrite <- app_assoc. auto.
Qed.

(** Every pattern of the scripts starts with literal characters: such a
    pattern matches no empty text, and only where its first character
    stands. *)
Section Headed.

Variables (c : ascii) (l : text) (r' : regex).

Let r : regex := Lit (c :: l) :: r'.

Lemma headed_nil : match_here r [] = None.
Proof. reflexivity. Qed.

Lemma headed_miss (x : ascii) (s : text) :
  x <> c -> match_here r (x :: s) = None.
Proof.
  intros H. simpl. destruct (Ascii.eqb_spec c x); [congruence | reflexivity].
Qed.

Lemma headed_absent (s : text) :
  starts_with (c :: l) s = false -> match_here r s = None.
Proof.
  intros H. apply strip_prefix_starts in H. unfold r. cbn [match_here].
  now rewrite H.
Qed.

Lemma headed_match (s : text) (segs : list text) (rest : text) :
  match_here r s = Some (segs, rest) ->
  exists segs' s', segs = (c :: l) :: segs' /\ s = c :: s'
                   /\ s' = l ++ concat segs' ++ rest.
Proof.
  intros H. pose proof (match_here_sound _ _ _ _ H) as [Hs _].
  unfold r in H. cbn [match_here] in H.
  destruct (strip_prefix (c :: l) s) as [s1|] eqn:E; [|discriminate].
  destruct (match_here r' s1) as [[segs' rest']|]; simpl in H; [|discriminate].
  injection H as <- <-. exists segs', (l ++ concat segs' ++ rest').
  split; [reflexivity|]. split; [|reflexivity].
  rewrite Hs. simpl. now rewrite <- app_assoc.
Qed.

Variable repl : list text -> text.

Lemma sub_from_skip (m rest : text) :
  sub_from r repl (length m) (m ++ rest) = sub_from r repl 0 rest.
Proof.
  induction m as [|x m IH]; simpl; [|exact IH].
  destruct rest; reflexivity.
Qed.

Lemma matches_from_skip (m rest : text) :
  matches_from r (length m) (m ++ rest) = matches_from r 0 rest.
Proof.
  induction m as [|x m IH]; simpl; [|exact IH].
  destruct rest; reflexivity.
Qed.

Lemma re_sub_nil : re_sub r repl [] = [].
Proof. reflexivity. Qed.

Lemma re_sub_miss (x : ascii) (s : text) :
  match_here r (x :: s) = None ->
  re_sub r repl (x :: s) = x :: re_sub r repl s.
Proof. intros H. unfold re_sub. cbn [sub_from]. now rewrite H. Qed.

Lemma re_sub_hit (s : text) (segs : list text) (rest : text) :
  match_here r s = Some (segs, rest) ->
  re_sub r repl s = repl segs ++ re_sub r repl rest.
Proof.
  intros H. destruct (headed_match _ _ _ H) as [segs' [s' [-> [-> ->]]]].
  unfold re_sub. cbn [sub_from]. rewrite H.
  cbn [concat length app]. f_equal.
  rewrite app_assoc. apply sub_from_skip.
Qed.

Lemma re_matches_nil : re_matches r [] = [].
Proof. reflexivity. Qed.

Lemma re_matches_miss (x : ascii) (s : text) :
  match_here r (x :: s) = None -> re_matches r (x :: s) = re_matches r s.
Proof. intros H. unfold re_matches. cbn [matches_from]. now rewrite H. Qed.

Lemma re_matches_hit (s : text) (segs : list text) (rest : text) :
  match_here r s = Some (segs, rest) ->
  re_matches r s = segs :: re_matches r rest.
Proof.
  intros H. destruct (headed_match _ _ _ H) as [segs' [s' [-> [-> ->]]]].
  unfold re_matches. cbn [matches_from]. rewrite H.
  cbn [concat length app Nat.pred]. f_equal.
  rewrite app_assoc. apply matches_from_skip.
Qed.

(** Induction along the scan of [re.sub]. *)
Lemma scan_ind (P : text -> Prop) :
  P [] ->
  (forall x s, match_here r (x :: s) = None -> P s -> P (x :: s)) ->
  (forall s segs rest,
      match_here r s = Some (segs, rest) -> s = concat segs ++ rest ->
      P rest -> P s) ->
  forall s, P s.
Proof.
  intros Hnil Hmiss Hhit s.
  remember (length s) as n eqn:Hn.
  revert s Hn. induction n as [n IH] using lt_wf_ind. intros s Hn.
  destruct s as [|x s]; [exact Hnil|].
  destruct (match_here r (x :: s)) as [[segs rest]|] eqn:E.
  - pose proof (match_here_sound _ _ _ _ E) as [Hs _].
    destruct (headed_match _ _ _ E) as [segs' [s' [Es _]]].
    apply (Hhit _ _ _ E Hs).
    apply (IH (length rest)); [|reflexivity].
    subst n. rewrite Hs, Es. simpl. rewrite !length_app. lia.
  - apply Hmiss; [exact E|]. apply (IH (length s)); [|reflexivity].
    subst n. simpl. lia.
Qed.

(** Without the first literal in the text nothing is replaced. *)
Lemma re_sub_absent (s : text) :
  contains (c :: l) s = false -> re_sub r repl s = s.
Proof.
  induction s as [|x s IH]; [reflexivity|].
  simpl contains. intros H. apply orb_false_iff in H as [H1 H2].
  rewrite re_sub_miss; [now rewrite IH | now apply headed_absent].
Qed.

Lemma re_matches_absent (s : text) :
  contains (c :: l) s = false -> re_matches r s = [].
Proof.
  induction s as [|x s IH]; [reflexivity|].
  simpl contains. intros H. apply orb_false_iff in H as [H1 H2].
  rewrite re_matches_miss; [now apply IH | now apply headed_absent].
Qed.

End Headed.

Module HashlibFacts.
Import Hashlib.

Lemma length_be_bytes (n : nat) (x : Z) : length (be_bytes n x) = n.
Proof. induction n as [|n IH]; simpl; [reflexivity | now rewrite IH]. Qed.

Lemma be_bytes_range (n : nat) (x : Z) :
  Forall (fun b => (0 <= b < 256)%Z) (be_bytes n x).
Proof.
  induction n as [|n IH]; simpl; constructor; [|exact IH].
  apply Z.mod_pos_bound. lia.
Qed.

Lemma length_sha1 (msg : list Z) : length (sha1 msg) = 20.
Proof. unfold sha1. now rewrite !length_app, !length_be_bytes. Qed.

Lemma sha1_range (msg : list Z) :
  Forall (fun b => (0 <= b < 256)%Z) (sha1 msg).
Proof. unfold sha1. repeat apply Forall_app_2; apply be_bytes_range. Qed.

Lemma upper_hex_digit (n : Z) :
  upper_char (hex_digit true n) = hex_digit false n.
Proof.
  unfold hex_digit. generalize (Z.to_nat n). intros k.
  do 17 (destruct k as [|k]; [reflexivity|]). destruct k; reflexivity.
Qed.

Lemma upper_hex_byte (b : Z) : upper (hex_byte true b) = hex_byte false b.
Proof. unfold hex_byte. simpl. now rewrite !upper_hex_digit. Qed.

Lemma upper_hexdigest (d : list Z) :
  upper (hexdigest d) = concat (map (hex_byte false) d).
Proof.
  unfold hexdigest, upper. induction d as [|b d IH]; [reflexivity|].
  cbn [map concat]. rewrite map_app. f_equal; [apply upper_hex_byte | exact IH].
Qed.

Lemma firstn_hexdigest (n : nat) (d : list Z) :
  firstn (2 * n) (hexdigest d) = hexdigest (firstn n d).
Proof.
  unfold hexdigest. revert d; induction n as [|n IH]; intros d; [reflexivity|].
  destruct d as [|b d]; [reflexivity|].
  replace (2 * S n) with (S (S (2 * n))) by lia.
  cbn [map concat firstn hex_byte app]. now rewrite IH.
Qed.

Lemma hex_digit_upper_in (n : Z) :
  In (hex_digit false n) (txt "0123456789ABCDEF").
Proof.
  unfold hex_digit. generalize (Z.to_nat n). intros k.
  do 16 (destruct k as [|k]; [simpl; tauto|]). destruct k; simpl; tauto.
Qed.

End HashlibFacts.

Lemma generate_id_bytes (t : text) :
  generate_id t =
  concat (map (Hashlib.hex_byte false)
            (firstn 12 (Hashlib.sha1 (Hashlib.encode t)))).
Proof.
  unfold generate_id. change 24 with (2 * 12).
  now rewrite HashlibFacts.firstn_hexdigest, HashlibFacts.upper_hexdigest.
Qed.

Lemma generate_id_length (t : text) : length (generate_id t) = 24.
Proof.
  rewrite generate_id_bytes.
  pose proof (HashlibFacts.length_sha1 (Hashlib.encode t)) as H.
  destruct (Hashlib.sha1 (Hashlib.encode t)) as [|b0 d]; [discriminate|].
  do 11 (destruct d as [|? d]; [discriminate|]). reflexivity.
Qed.

Lemma generate_id_hex (t : text) :
  Forall (fun c => In c (txt "0123456789ABCDEF")) (generate_id t).
Proof.
  rewrite generate_id_bytes.
  induction (firstn 12 (Hashlib.sha1 (Hashlib.encode t))) as [|b d IH].
  - constructor.
  - cbn [map concat Hashlib.hex_byte app].
    constructor; [apply HashlibFacts.hex_digit_upper_in|].
    constructor; [apply HashlibFacts.hex_digit_upper_in | exact IH].
Qed.

(** C5 *)
Theorem generate_id_is_truncated_sha1 (name suffix : text) :
  generate_id (name ++ suffix) =
    Hashlib.upper
      (firstn 24
         (Hashlib.hexdigest (Hashlib.sha1 (Hashlib.encode (name ++ suffix)))))
  /\ macos_inline_id name suffix = generate_id (name ++ suffix)
  /\ generate_id (name ++ suffix) =
       concat (map (Hashlib.hex_byte false)
                 (firstn 12 (Hashlib.sha1 (Hashlib.encode (name ++ suffix)))))
  /\ length (generate_id (name ++ suffix)) = 24
  /\ Forall (fun c => In c (txt "0123456789ABCDEF"))
       (generate_id (name ++ suffix)).
Proof.
  split; [reflexivity|]. split; [reflexivity|].
  split; [apply generate_id_bytes|].
  split; [apply generate_id_length | apply generate_id_hex].
Qed.

Example sha1_abc :
  Hashlib.hexdigest (Hashlib.sha1 (Hashlib.encode (txt "abc")))
  = txt "a9993e364706816aba3e25717850c26c9cd0d89d".
Proof. vm_compute. reflexivity. Qed.

Example ios_ids :
  generate_id (IOS.library_name ++ txt "_file_ref") = txt "30547B148C487C04BC4E818D"
  /\ generate_id (IOS.library_name ++ txt "_build_file") = txt "E6805C116B180748441DD57A".
Proof. split; vm_compute; reflexivity. Qed.

(** * Facts about the scripts as programs *)

Module SysFacts.
Import Sys SysSpec.

Create HintDb read_only.

Lemma read_only_ret {A : Type} (a : A) : read_only (ret a).
Proof. intros w. simpl. auto. Qed.

Lemma read_only_sys_exit {A : Type} (c : Z) : read_only (@sys_exit A c).
Proof. intros w. simpl. auto. Qed.

Lemma read_only_print (line : string) : read_only (print line).
Proof. intros w. simpl. auto. Qed.

Lemma read_only_getcwd : read_only getcwd.
Proof. intros w. simpl. auto. Qed.

Lemma read_only_exists (p : Path) : read_only (exists_ p).
Proof. intros w. simpl. auto. Qed.

Lemma read_only_read_text (p : Path) : read_only (read_text p).
Proof.
  intros w. unfold read_text.
  destruct (node_at (files w) (locate w p)) as [[c|]|]; simpl; auto.
Qed.

Lemma read_only_bind {A B : Type} (m : M A) (k : A -> M B) :
  read_only m -> (forall a, read_only (k a)) -> read_only (bind m k).
Proof.
  intros Hm Hk w. unfold bind. specialize (Hm w).
  destruct (m w) as [[a | c | e] w1]; simpl in Hm; simpl; [|exact Hm..].
  destruct (Hk a w1) as [H1 [H2 H3]]. destruct Hm as [H4 [H5 H6]].
  rewrite H1, H2, H3. auto.
Qed.

Lemma read_only_if {A : Type} (b : bool) (m1 m2 : M A) :
  read_only m1 -> read_only m2 -> read_only (if b then m1 else m2).
Proof. destruct b; auto. Qed.

#[export] Hint Resolve read_only_ret read_only_sys_exit read_only_print
  read_only_getcwd read_only_exists read_only_read_text : read_only.

Ltac read_only_step :=
  first
    [ apply read_only_bind; [|intros ?]
    | apply read_only_if
    | solve [auto with read_only] ].

Lemma read_only_find_up (fuel : nat) (current : Path) :
  read_only (find_up fuel current).
Proof.
  revert current; induction fuel as [|fuel IH]; intros current; simpl.
  - apply read_only_ret.
  - case_bool_decide; [apply read_only_ret|].
    repeat read_only_step.
Qed.

Lemma read_only_find_flutter_project_root :
  read_only find_flutter_project_root.
Proof.
  unfold find_flutter_project_root.
  apply read_only_bind; [apply read_only_getcwd|]. intros start.
  apply read_only_find_up.
Qed.

Lemma read_only_check_openssl : read_only check_openssl_for_android.
Proof. unfold check_openssl_for_android. repeat read_only_step. Qed.

Lemma read_only_verify_cmake (project_root : Path) :
  read_only (verify_cmake_integration project_root).
Proof. unfold verify_cmake_integration. repeat read_only_step. Qed.

Lemma read_only_android_check (project_root : Path) (fipers_root : option Path) :
  read_only (android_check project_root fipers_root).
Proof.
  unfold android_check.
  apply read_only_bind.
  - destruct fipers_root; auto with read_only.
  - intros has_cmake. destruct fipers_root as [root|]; [destruct has_cmake|].
    + repeat first [ apply read_only_check_openssl
                   | apply read_only_verify_cmake | read_only_step ].
    + repeat read_only_step.
    + repeat read_only_step.
Qed.

Lemma read_only_android_main (argv1 : option Path) :
  read_only (android_main argv1).
Proof.
  unfold android_main. apply read_only_bind.
  - destruct argv1; [apply read_only_ret | apply read_only_find_flutter_project_root].
  - intros [project_root|]; [|repeat read_only_step].
    repeat first [ apply read_only_android_check | read_only_step ].
Qed.

(** The loop of [find_flutter_project_root] ends at the root before its
    fuel does. *)
Lemma find_up_fuel (n : nat) (ps : list string) (w : world) :
  length ps < n ->
  find_up n (mkPath true ps) w = find_up (S n) (mkPath true ps) w.
Proof.
  revert ps w; induction n as [|n IH]; intros ps w Hlen; [lia|].
  cbn [find_up]. case_bool_decide as E; [reflexivity|].
  unfold bind. destruct (exists_ _ w) as [[[|] | |] w1] eqn:Ex; try reflexivity.
  unfold parent. cbn [anchored parts].
  assert (Hps : ps <> []).
  { intros ->. apply E. reflexivity. }
  apply IH. destruct ps as [|p ps] using rev_ind; [congruence|].
  rewrite removelast_last. rewrite length_app in Hlen. simpl in Hlen. lia.
Qed.

Lemma bind_ret {A B : Type} (a : A) (k : A -> M B) (w : world) :
  bind (ret a) k w = k a w.
Proof. reflexivity. Qed.

Lemma bind_print {B : Type} (line : string) (k : unit -> M B) (w : world) :
  bind (print line) k w = k tt (printed w [line]).
Proof. reflexivity. Qed.

Lemma bind_exists {B : Type} (p : Path) (k : bool -> M B) (w : world) :
  bind (exists_ p) k w =
  k (match node_at (files w) (locate w p) with Some _ => true | None => false end) w.
Proof. reflexivity. Qed.

Lemma bind_getcwd {B : Type} (k : Path -> M B) (w : world) :
  bind getcwd k w = k (mkPath true (cwd w)) w.
Proof. reflexivity. Qed.

Lemma bind_inv {A B : Type} (m : M A) (k : A -> M B) (w : world)
    (r : result B) (w' : world) :
  bind m k w = (r, w') ->
  (exists a w1, m w = (Val a, w1) /\ k a w1 = (r, w'))
  \/ (exists c, m w = (Exit c, w') /\ r = Exit c)
  \/ (exists e, m w = (Raise e, w') /\ r = Raise e).
Proof.
  unfold bind. destruct (m w) as [[a | c | e] w1]; intros H.
  - left. now exists a, w1.
  - right. left. injection H as <- <-. now exists c.
  - right. right. injection H as <- <-. now exists e.
Qed.

Lemma printed_printed (w : world) (a b : list string) :
  printed (printed w a) b = printed w (a ++ b).
Proof. unfold printed. simpl. now rewrite <- app_assoc. Qed.

Lemma locate_div (w : world) (p : Path) (n : string) :
  locate w (p </> n) = locate w p ++ [n].
Proof.
  unfold locate, div. simpl. destruct (anchored p); [reflexivity|].
  now rewrite app_assoc.
Qed.

Lemma add_suffix_div (p : Path) (n s : string) :
  add_suffix (p </> n) s = p </> (n ++ s)%string.
Proof.
  unfold add_suffix, div, name. simpl.
  now rewrite removelast_last, last_last.
Qed.

Lemma name_div (p : Path) (n : string) : name (p </> n) = n.
Proof. unfold name, div. simpl. apply last_last. Qed.

Lemma node_at_insert_ne (fs : gmap (list string) node) (d l : list string)
    (n : node) :
  d <> l -> node_at (<[d := n]> fs) l = node_at fs l.
Proof.
  intros H. unfold node_at. destruct l; [reflexivity|].
  now apply lookup_insert_ne.
Qed.

Lemma node_at_insert_eq (fs : gmap (list string) node) (l : list string)
    (n : node) :
  l <> [] -> node_at (<[l := n]> fs) l = Some n.
Proof.
  intros H. unfold node_at. destruct l; [congruence|].
  apply lookup_insert_eq.
Qed.

Lemma is_dir_at_root_not (fs : gmap (list string) node) (l : list string) :
  is_dir_at fs l = false -> l <> [].
Proof. intros H ->. discriminate. Qed.

(** What the file operations do when they return. *)

Lemma mkdir_inv (p : Path) (w : world) (r : result unit) (w1 : world) :
  mkdir_exist_ok p w = (r, w1) ->
  (exists e, r = Raise e /\ w1 = w)
  \/ (r = Val tt /\ w1 = w)
  \/ (r = Val tt /\ w1 = change w (<[locate w p := Dir]> (files w))
                             (Mkdir (locate w p))).
Proof.
  unfold mkdir_exist_ok.
  destruct (node_at (files w) (locate w p)) as [[c|]|].
  - intros [= <- <-]. left. eauto.
  - intros [= <- <-]. right. left. auto.
  - destruct (is_dir_at (files w) (removelast (locate w p)));
      intros [= <- <-]; [right; right; auto | left; eauto].
Qed.

Lemma copy2_inv (src dst : Path) (w : world) (r : result unit) (w1 : world) :
  copy2 src dst w = (r, w1) ->
  (exists e, r = Raise e /\ w1 = w)
  \/ (exists c d,
        r = Val tt
        /\ node_at (files w) (locate w src) = Some (File c)
        /\ (d = locate w dst \/ d = locate w dst ++ [name src])
        /\ d <> locate w src /\ d <> []
        /\ w1 = change w (<[d := File c]> (files w)) (Copy (locate w src) d)).
Proof.
  unfold copy2.
  destruct (node_at (files w) (locate w src)) as [[c|]|] eqn:Hsrc;
    [|intros [= <- <-]; left; eauto..].
  set (d := if is_dir_at (files w) (locate w dst)
            then locate w dst ++ [name src] else locate w dst).
  assert (Hd : d = locate w dst \/ d = locate w dst ++ [name src]).
  { unfold d. destruct (is_dir_at (files w) (locate w dst)); auto. }
  case_bool_decide as Hsame; [intros [= <- <-]; left; eauto|].
  destruct (is_dir_at (files w) d) eqn:Hdir; [intros [= <- <-]; left; eauto|].
  destruct (is_dir_at (files w) (removelast d));
    intros [= <- <-]; [|left; eauto].
  right. exists c, d. repeat split; auto.
  apply (is_dir_at_root_not _ _ Hdir).
Qed.

Lemma write_text_inv (p : Path) (content : text) (w : world)
    (r : result unit) (w1 : world) :
  write_text p content w = (r, w1) ->
  (exists e, r = Raise e /\ w1 = w)
  \/ (r = Val tt
      /\ w1 = change w (<[locate w p := File content]> (files w))
                (Write (locate w p) content)).
Proof.
  unfold write_text.
  destruct (node_at (files w) (locate w p)) as [[c|]|];
    try (intros [= <- <-]; left; eauto; fail);
    destruct (is_dir_at (files w) (removelast (locate w p)));
    intros [= <- <-]; [right; auto | left; eauto | right; auto | left; eauto].
Qed.

Lemma read_text_inv (p : Path) (w : world) (r : result text) (w1 : world) :
  read_text p w = (r, w1) ->
  w1 = w
  /\ ((exists e, r = Raise e)
      \/ (exists c, r = Val c /\ node_at (files w) (locate w p) = Some (File c))).
Proof.
  unfold read_text.
  destruct (node_at (files w) (locate w p)) as [[c|]|];
    intros [= <- <-]; split; eauto.
Qed.

Ltac bind_inv H :=
  let a := fresh "a" in
  let w1 := fresh "w" in
  let H1 := fresh "Hop" in
  apply bind_inv in H as [(a & w1 & H1 & H) | [(? & H1 & ->) | (? & H1 & ->)]].

Lemma says_refl (w : world) : says w w [].
Proof. unfold says. now rewrite app_nil_r. Qed.

Lemma says_printed (w w1 : world) (l1 l2 : list string) :
  says w w1 l1 -> says w (printed w1 l2) (l1 ++ l2).
Proof. unfold says, printed. simpl. intros ->. now rewrite app_assoc. Qed.

Lemma says_change (w w1 : world) (l : list string)
    (fs : gmap (list string) node) (e : event) :
  says w w1 l -> says w (change w1 fs e) l.
Proof. unfold says, change. simpl. auto. Qed.

Lemma does_refl (w : world) : does w w [].
Proof. unfold does. now rewrite app_nil_r. Qed.

Lemma does_printed (w w1 : world) (evs : list event) (l : list string) :
  does w w1 evs -> does w (printed w1 l) evs.
Proof. unfold does, printed. simpl. auto. Qed.

Lemma does_change (w w1 : world) (evs : list event)
    (fs : gmap (list string) node) (e : event) :
  does w w1 evs -> does w (change w1 fs e) (evs ++ [e]).
Proof. unfold does, change. simpl. intros ->. now rewrite app_assoc. Qed.

(** Collects what a nest of [printed] and [change] has printed and done. *)
Ltac trace_ex :=
  repeat first
    [ apply says_refl | apply does_refl
    | apply says_printed | apply says_change
    | apply does_printed | apply does_change ].

(** Checks it against a list that is given. *)
Ltac trace_tac :=
  match goal with
  | |- does ?w ?w' _ =>
      let H := fresh in eassert (H : does w w' _) by trace_ex; exact H
  | |- says ?w ?w' _ =>
      let H := fresh in eassert (H : says w w' _) by trace_ex; exact H
  end.

Lemma ios_rewrite_cases (p d : Path) (content : text) (w : world)
    (r : result bool) (w' : world) :
  ios_rewrite_manifest p d content w = (r, w') ->
  cwd w' = cwd w /\
  ((exists e, r = Raise e /\ files w' = files w /\ does w w' []
              /\ says w w' [])
   \/ (exists c b lines,
         node_at (files w) (locate w p) = Some (File c)
         /\ (b = locate w (add_suffix p ".backup")
             \/ b = locate w (add_suffix p ".backup") ++ [name p])
         /\ b <> locate w p /\ b <> []
         /\ says w w' lines
         /\ ((exists e, r = Raise e
                 /\ files w' = <[b := File c]> (files w)
                 /\ does w w' [Copy (locate w p) b]
                 /\ quiet lines)
             \/ (r = Val true
                 /\ (In ios_success_line lines \/ In ios_updated_line lines)
                 /\ files w' =
                    <[locate w p :=
                        File (IOS.patch ios_file_ref_id ios_build_file_id content)]>
                      (<[b := File c]> (files w))
                 /\ does w w'
                      [Copy (locate w p) b;
                       Write (locate w p)
                         (IOS.patch ios_file_ref_id ios_build_file_id content)])))).
Proof.
  unfold ios_rewrite_manifest, IOS.patch. intros H.
  bind_inv H.
  2: { apply copy2_inv in Hop as [(e & [=] & _) | (c & b & [=] & _)]. }
  2: { apply copy2_inv in Hop as [(e & [= <-] & ->) | (c & b & [=] & _)].
       split; [reflexivity|]. left. exists x.
       split; [reflexivity|]. split; [reflexivity|]. split; trace_tac. }
  apply copy2_inv in Hop as [(e & [=] & _) | (c & b & _ & Hc & Hb & Hne & Hnil & ->)].
  rewrite bind_print in H.
  destruct (contains IOS.library_name content).
  - rewrite bind_print in H. bind_inv H.
    2: { apply write_text_inv in Hop as [(e & [=] & _) | ([=] & _)]. }
    2: { apply write_text_inv in Hop as [(e & [= <-] & ->) | ([=] & _)].
         split; [reflexivity|]. right. exists c, b. eexists.
         do 4 (split; [eassumption|]). split; [trace_ex|].
         left. exists x. split; [reflexivity|]. split; [reflexivity|].
         split; [trace_tac|]. split; simpl; intros [E | [E | []]]; discriminate E. }
    apply write_text_inv in Hop as [(e & [=] & _) | (_ & ->)].
    rewrite bind_print in H. unfold ret in H. injection H as <- <-.
    split; [reflexivity|]. right. exists c, b. eexists.
    do 4 (split; [eassumption|]). split; [trace_ex|].
    right. split; [reflexivity|].
    split; [right; cbn; auto|]. split; [reflexivity|]. trace_tac.
  - bind_inv H.
    2: { apply write_text_inv in Hop as [(e & [=] & _) | ([=] & _)]. }
    2: { apply write_text_inv in Hop as [(e & [= <-] & ->) | ([=] & _)].
         split; [reflexivity|]. right. exists c, b. eexists.
         do 4 (split; [eassumption|]). split; [trace_ex|].
         left. exists x. split; [reflexivity|]. split; [reflexivity|].
         split; [trace_tac|]. split; simpl; intros [E | []]; discriminate E. }
    apply write_text_inv in Hop as [(e & [=] & _) | (_ & ->)].
    rewrite !bind_print in H. unfold ret in H. injection H as <- <-.
    split; [reflexivity|]. right. exists c, b. eexists.
    do 4 (split; [eassumption|]). split; [trace_ex|].
    right. split; [reflexivity|].
    split; [left; cbn; auto|]. split; [reflexivity|]. trace_tac.
Qed.

Lemma mkdir_ok (p : Path) (w w1 : world) :
  mkdir_exist_ok p w = (Val tt, w1) ->
  cwd w1 = cwd w /\ console w1 = console w
  /\ (forall l, l <> locate w p -> node_at (files w1) l = node_at (files w) l)
  /\ (forall l n, node_at (files w) l = Some n -> node_at (files w1) l = Some n)
  /\ exists pre, (pre = [] \/ pre = [Mkdir (locate w p)])
                 /\ log w1 = log w ++ pre.
Proof.
  unfold mkdir_exist_ok.
  destruct (node_at (files w) (locate w p)) as [[c|]|] eqn:E; [discriminate| |].
  - intros [= <-]. repeat split; auto.
    exists []. split; [auto | now rewrite app_nil_r].
  - destruct (is_dir_at (files w) (removelast (locate w p))); [|discriminate].
    intros [= <-]. repeat split.
    + intros l Hl. simpl. now apply node_at_insert_ne.
    + intros l n Hl. simpl. rewrite node_at_insert_ne; [exact Hl | congruence].
    + eexists. split; [right|]; reflexivity.
Qed.

Lemma copy2_ok (src dst : Path) (w w1 : world) :
  copy2 src dst w = (Val tt, w1) ->
  exists c d,
    node_at (files w) (locate w src) = Some (File c)
    /\ (d = locate w dst \/ d = locate w dst ++ [name src])
    /\ d <> locate w src
    /\ cwd w1 = cwd w /\ console w1 = console w
    /\ log w1 = log w ++ [Copy (locate w src) d]
    /\ node_at (files w1) d = Some (File c)
    /\ (forall l, l <> d -> node_at (files w1) l = node_at (files w) l).
Proof.
  intros H.
  apply copy2_inv in H as [(e & [=] & _) | (c & d & _ & Hc & Hd & Hne & Hnil & ->)].
  exists c, d. repeat split; auto.
  - simpl. now apply node_at_insert_eq.
  - intros l Hl. simpl. now apply node_at_insert_ne.
Qed.

Lemma op_raise_copy2 (src dst : Path) (w w1 : world) (e : string) :
  copy2 src dst w = (Raise e, w1) -> w1 = w.
Proof.
  intros H. now apply copy2_inv in H as [(e' & _ & ->) | (c & d & [=] & _)].
Qed.

Lemma op_raise_mkdir (p : Path) (w w1 : world) (e : string) :
  mkdir_exist_ok p w = (Raise e, w1) -> w1 = w.
Proof.
  intros H.
  now apply mkdir_inv in H as [(e' & _ & ->) | [([=] & _) | ([=] & _)]].
Qed.

Lemma op_exit_copy2 (src dst : Path) (w w1 : world) (c : Z) :
  copy2 src dst w = (Exit c, w1) -> False.
Proof.
  intros H. now apply copy2_inv in H as [(e' & [=] & _) | (? & d & [=] & _)].
Qed.

Lemma op_exit_mkdir (p : Path) (w w1 : world) (c : Z) :
  mkdir_exist_ok p w = (Exit c, w1) -> False.
Proof.
  intros H.
  now apply mkdir_inv in H as [(e' & [=] & _) | [([=] & _) | ([=] & _)]].
Qed.

Lemma locate_div2 (w : world) (p : Path) (a b : string) :
  locate w (p </> a </> b) = locate w p ++ [a; b].
Proof. rewrite !locate_div. now rewrite <- app_assoc. Qed.

Ltac path_neq :=
  let E := fresh in
  intros E; unfold ios_manifest_of in *; rewrite <- ?app_assoc in E;
  apply app_inv_head in E; discriminate E.

Lemma ios_integrate_cases (root lib : Path) (w : world) (r : result bool)
    (w' : world) :
  ios_integrate_library root lib w = (r, w') ->
  let B := ios_dir_of w root in
  let m := ios_manifest_of w root in
  exists evs lines,
    does w w' evs /\ says w w' lines /\ cwd w' = cwd w /\
    ((r = Val false /\ evs = [] /\ files w' = files w
      /\ ((node_at (files w) B = None
           /\ lines = ["Error: iOS directory not found"%string])
          \/ (node_at (files w) m = None
              /\ lines = [("Error: Xcode project not found at " ++
                           str (root </> "ios" </> "Runner.xcodeproj"
                                </> "project.pbxproj"))%string])
          \/ (node_at (files w) (locate w lib) = None
              /\ lines = [("Error: Library not found at " ++ str lib)%string])))
     \/ (exists e, r = Raise e /\ (forall l c, ~ In (Write l c) evs)
                   /\ quiet lines)
     \/ (r = Val true /\
         (In ios_success_line lines \/ In ios_updated_line lines) /\
         exists libc content d b pre,
           node_at (files w) B <> None
           /\ node_at (files w) (locate w lib) = Some (File libc)
           /\ node_at (files w) m = Some (File content)
           /\ (d = B ++ ["Frameworks"; "libfipers.a"]%string
               \/ d = B ++ ["Frameworks"; "libfipers.a"; name lib]%string)
           /\ (b = B ++ ["Runner.xcodeproj"; "project.pbxproj.backup"]%string
               \/ b = B ++ ["Runner.xcodeproj"; "project.pbxproj.backup";
                            "project.pbxproj"]%string)
           /\ (pre = [] \/ pre = [Mkdir (B ++ ["Frameworks"%string])])
           /\ evs = pre ++ [Copy (locate w lib) d; Copy m b;
                            Write m (IOS.patch ios_file_ref_id
                                       ios_build_file_id content)]
           /\ node_at (files w') d = Some (File libc)
           /\ node_at (files w') b = Some (File content)
           /\ node_at (files w') m =
              Some (File (IOS.patch ios_file_ref_id ios_build_file_id content))
           /\ (forall l, l <> d -> l <> b -> l <> m ->
                         l <> B ++ ["Frameworks"%string] ->
                         node_at (files w') l = node_at (files w) l))).
Proof.
  intros H B m. unfold ios_integrate_library in H.
  assert (Em : locate w (root </> "ios" </> "Runner.xcodeproj" </> "project.pbxproj") = m).
  { unfold m, ios_manifest_of, ios_dir_of.
    apply (locate_div2 w (root </> "ios")). }
  rewrite bind_exists in H. fold (ios_dir_of w root) in H. fold B in H.
  destruct (node_at (files w) B) as [nB|] eqn:HB; cbn [negb] in H.
  2: { rewrite bind_print in H. injection H as <- <-.
       exists [], ["Error: iOS directory not found"%string].
       split; [trace_tac|]. split; [trace_tac|]. split; [reflexivity|].
       left. repeat split. left. auto. }
  rewrite bind_exists, Em in H.
  destruct (node_at (files w) m) as [nm|] eqn:Hm; cbn [negb] in H.
  2: { rewrite bind_print in H. injection H as <- <-.
       eexists [], _.
       split; [trace_tac|]. split; [trace_tac|]. split; [reflexivity|].
       left. repeat split. right. left. auto. }
  rewrite bind_exists in H.
  destruct (node_at (files w) (locate w lib)) as [nl|] eqn:Hl; cbn [negb] in H.
  2: { rewrite bind_print in H. injection H as <- <-.
       eexists [], _.
       split; [trace_tac|]. split; [trace_tac|]. split; [reflexivity|].
       left. repeat split. right. right. auto. }
  bind_inv H.
  2: { now apply op_exit_mkdir in Hop. }
  2: { apply op_raise_mkdir in Hop as ->. exists [], [].
       split; [trace_tac|]. split; [trace_tac|]. split; [reflexivity|].
       right. left. exists x. unfold quiet. repeat split; auto. }
  repeat match goal with u : unit |- _ => destruct u end.
  apply mkdir_ok in Hop as (Hcwd1 & Hcon1 & Hfr1 & Hkeep1 & pre & Hpre & Hlog1).
  assert (Eloc1 : forall p, locate w0 p = locate w p).
  { intros p. unfold locate. now rewrite Hcwd1. }
  rewrite locate_div in Hfr1, Hpre. fold (ios_dir_of w root) in Hfr1, Hpre.
  fold B in Hfr1, Hpre.
  assert (Hprew : forall l c, ~ In (Write l c) pre).
  { intros l c Hin. destruct Hpre as [-> | ->]; simpl in Hin; [tauto|].
    destruct Hin as [E|[]]. discriminate E. }
  bind_inv H.
  2: { now apply op_exit_copy2 in Hop. }
  2: { apply op_raise_copy2 in Hop as ->. exists pre, [].
       split; [exact Hlog1|]. split; [unfold says; now rewrite Hcon1, app_nil_r|].
       split; [exact Hcwd1|]. right. left. exists x. unfold quiet. repeat split; auto. }
  repeat match goal with u : unit |- _ => destruct u end.
  apply copy2_ok in Hop
    as (libc & d & Hlibc & Hd & Hdne & Hcwd2 & Hcon2 & Hlog2 & Hd2 & Hfr2).
  rewrite !Eloc1 in *. rewrite (locate_div2 w (root </> "ios")) in Hd.
  fold (ios_dir_of w root) in Hd. fold B in Hd.
  rewrite <- !app_assoc in Hd. cbn [app] in Hd.
  assert (Eloc2 : forall p, locate w1 p = locate w p).
  { intros p. unfold locate. now rewrite Hcwd2, Hcwd1. }
  assert (Hdm : m <> d) by (destruct Hd as [-> | ->]; unfold m, B; path_neq).
  assert (Hfm : m <> B ++ ["Frameworks"%string]) by (unfold m, B; path_neq).
  rewrite bind_print in H. bind_inv H.
  2: { apply read_text_inv in Hop as [_ [[e [=]] | [c [[=] _]]]]. }
  2: { apply read_text_inv in Hop as [-> _].
       exists (pre ++ [Copy (locate w lib) d]). eexists.
       split; [unfold does, printed; cbn [log]; now rewrite Hlog2, Hlog1, <- app_assoc|].
       split; [unfold says, printed; cbn [console]; now rewrite Hcon2, Hcon1|].
       split; [unfold printed; cbn [cwd]; congruence|].
       right. left. exists x. split; [reflexivity|]. split.
       - intros l c Hin. apply in_app_or in Hin as [Hin | [E | []]].
         + now apply Hprew in Hin.
         + discriminate E.
       - split; simpl; intros [E | []]; discriminate E. }
  apply read_text_inv in Hop as [-> [[e [=]] | [content [[= ->] Hcontent]]]].
  cbn [files printed] in Hcontent.
  change (locate (printed w1 _) ?p) with (locate w1 p) in Hcontent.
  rewrite Eloc2, Em in Hcontent.
  assert (Hcontent0 : node_at (files w) m = Some (File content)).
  { rewrite <- Hfr1 by exact Hfm. rewrite <- Hfr2 by exact Hdm. exact Hcontent. }
  apply ios_rewrite_cases in H as [Hcwd3 Hcases].
  cbn [files printed cwd] in Hcases, Hcwd3.
  change (locate (printed w1 ?l) ?p) with (locate w1 p) in Hcases.
  rewrite !Eloc2, Em in Hcases. rewrite add_suffix_div, name_div in Hcases.
  rewrite (locate_div2 w (root </> "ios")) in Hcases.
  fold (ios_dir_of w root) in Hcases.
  fold B in Hcases. rewrite <- !app_assoc in Hcases. cbn [app] in Hcases.
  change (String.append "project.pbxproj" ".backup")
    with "project.pbxproj.backup"%string in Hcases.
  destruct Hcases
    as [(e & -> & Hf & Hdo & Hsay)
        | (c & b & lines & Hc & Hb & Hbne & Hbnil & Hsay & Hcase)].
  - exists (pre ++ [Copy (locate w lib) d]). eexists.
    split; [unfold does in *; cbn [log printed] in Hdo;
            now rewrite Hdo, app_nil_r, Hlog2, Hlog1, <- app_assoc|].
    split; [unfold says in *; cbn [console printed] in Hsay;
            now rewrite Hsay, app_nil_r, Hcon2, Hcon1|].
    split; [congruence|].
    right. left. exists e. split; [reflexivity|]. split.
    + intros l c Hin. apply in_app_or in Hin as [Hin | [E | []]].
      * now apply Hprew in Hin.
      * discriminate E.
    + split; simpl; intros [E | []]; discriminate E.
  - assert (Hbd : b <> d).
    { destruct Hb as [-> | ->]; destruct Hd as [-> | ->]; unfold B; path_neq. }
    assert (Hbf : b <> B ++ ["Frameworks"%string]).
    { destruct Hb as [-> | ->]; unfold B; path_neq. }
    assert (Ec : c = content) by congruence. subst c.
    destruct Hcase as [(e & -> & Hf & Hdo & Hnot) | (-> & Hyes & Hf & Hdo)].
    + exists (pre ++ [Copy (locate w lib) d; Copy m b]). eexists.
      split; [unfold does in *; cbn [log printed] in Hdo;
              now rewrite Hdo, Hlog2, Hlog1, <- !app_assoc|].
      split; [unfold says in *; cbn [console printed] in Hsay;
              rewrite Hsay, Hcon2, Hcon1, <- app_assoc; reflexivity|].
      split; [congruence|].
      right. left. exists e. split; [reflexivity|]. split.
      * intros l c Hin. apply in_app_or in Hin as [Hin | [E | [E | []]]].
        -- now apply Hprew in Hin.
        -- discriminate E.
        -- discriminate E.
      * destruct Hnot as [Hn1 Hn2].
        split; simpl; (intros [E | Hin]; [discriminate E | auto]).
    + exists (pre ++ [Copy (locate w lib) d; Copy m b;
                      Write m (IOS.patch ios_file_ref_id ios_build_file_id content)]).
      eexists.
      split; [unfold does in *; cbn [log printed] in Hdo;
              now rewrite Hdo, Hlog2, Hlog1, <- !app_assoc|].
      split; [unfold says in *; cbn [console printed] in Hsay;
              rewrite Hsay, Hcon2, Hcon1, <- app_assoc; reflexivity|].
      split; [congruence|].
      right. right. split; [reflexivity|].
      split; [destruct Hyes; [left | right]; right; assumption|].
      exists libc, content, d, b, pre.
      split; [discriminate|].
      split; [apply Hkeep1 in Hl; congruence|]. split; [congruence|].
      split; [exact Hd|]. split; [exact Hb|]. split; [exact Hpre|].
      split; [reflexivity|]. rewrite Hf.
      assert (Hmnil : m <> []) by (unfold m, ios_manifest_of; now destruct (ios_dir_of w root)).
      split; [rewrite !node_at_insert_ne by congruence; exact Hd2|].
      split; [rewrite node_at_insert_ne by congruence;
              now apply node_at_insert_eq|].
      split; [now apply node_at_insert_eq|].
      intros l H1 H2 H3 H4.
      rewrite !node_at_insert_ne by congruence.
      rewrite Hfr2 by exact H1. now apply Hfr1.
Qed.

Lemma says_trans (w w1 w2 : world) (l1 l2 : list string) :
  says w w1 l1 -> says w1 w2 l2 -> says w w2 (l1 ++ l2).
Proof. unfold says. intros H1 H2. now rewrite H2, H1, app_assoc. Qed.

Section Main.

Variable run_process :
  list string -> option (list string) -> gmap (list string) node ->
  completed * gmap (list string) node + string.

Lemma subprocess_inv (argv : list string) (dir : option Path) (w : world)
    (r : result completed) (w1 : world) :
  subprocess_run run_process argv dir w = (r, w1) ->
  (exists e, r = Raise e /\ w1 = w)
  \/ (exists c fs,
        r = Val c
        /\ run_process argv (option_map (locate w) dir) (files w) = inl (c, fs)
        /\ w1 = change w fs (Spawn argv)).
Proof.
  unfold subprocess_run.
  destruct (run_process argv _ (files w)) as [[c fs]|e]; intros [= <- <-];
    [right | left]; eauto.
Qed.

Lemma quiet_app (a b : list string) : quiet a -> quiet b -> quiet (a ++ b).
Proof.
  unfold quiet. intros [H1 H2] [H3 H4].
  split; intros H; apply in_app_or in H; tauto.
Qed.

Lemma ios_outcome_prefix (script : Path) (r : result unit) (w' : world)
    (pre lines : list string) :
  quiet pre -> ios_outcome script r w' lines ->
  ios_outcome script r w' (pre ++ lines).
Proof.
  intros Hq [(-> & Hl & d & Hd & Hdiag) | [(e & -> & Hl) | (-> & Hs & Hrun)]].
  - left. split; [reflexivity|]. split; [now apply quiet_app|].
    exists d. split; [apply in_or_app; now right | exact Hdiag].
  - right. left. exists e. split; [reflexivity | now apply quiet_app].
  - right. right. split; [reflexivity|]. split; [|exact Hrun].
    destruct Hs; [left | right]; apply in_or_app; now right.
Qed.

Ltac quiet_tac :=
  split; cbn; intuition discriminate.

Lemma ios_stage_integrate (script root : Path) (w : world) (r : result unit)
    (w' : world) :
  (do success <- ios_integrate_library root (ios_library_of script);
   if negb success then sys_exit 1 else ret tt) w = (r, w') ->
  exists lines, says w w' lines /\ ios_outcome script r w' lines.
Proof.
  intros H. bind_inv H.
  - pose proof (ios_integrate_cases _ _ _ _ _ Hop)
      as (evs & lines & _ & Hsay & _ & Hcases).
    exists lines. destruct a; cbn [negb] in H.
    + injection H as <- <-. split; [exact Hsay|].
      destruct Hcases as [([=] & _) | [(e & [=] & _) | (_ & Hyes & _)]].
      right. right. split; [reflexivity|]. split; [exact Hyes|]. eauto.
    + injection H as <- <-. split; [exact Hsay|].
      destruct Hcases as [(_ & _ & _ & Hwhy) | [(e & [=] & _) | ([=] & _)]].
      left. split; [reflexivity|].
      destruct Hwhy as [[_ ->] | [[_ ->] | [_ ->]]].
      * split; [quiet_tac|]. eexists. split; [left; reflexivity | constructor].
      * split; [quiet_tac|]. eexists. split; [left; reflexivity | constructor].
      * split; [quiet_tac|]. eexists. split; [left; reflexivity | constructor].
  - pose proof (ios_integrate_cases _ _ _ _ _ Hop)
      as (evs & lines & _ & Hsay & _ & Hcases).
    destruct Hcases as [([=] & _) | [(e & [=] & _) | ([=] & _)]].
  - pose proof (ios_integrate_cases _ _ _ _ _ Hop)
      as (evs & lines & _ & Hsay & _ & Hcases).
    exists lines. split; [exact Hsay|].
    destruct Hcases as [([=] & _) | [(e & _ & _ & Hq) | ([=] & _)]].
    right. left. eauto.
Qed.

Lemma ios_stage_library (script root : Path) (w : world) (r : result unit)
    (w' : world) :
  (do has_library <- exists_ (ios_library_of script);
   (if negb has_library then
      print ("Error: Library not found at " ++ str (ios_library_of script));;
      print "Please build the library first: ./scripts/build.sh ios Release";;
      sys_exit 1
    else ret tt);;
   do success <- ios_integrate_library root (ios_library_of script);
   if negb success then sys_exit 1 else ret tt) w = (r, w') ->
  exists lines, says w w' lines /\ ios_outcome script r w' lines.
Proof.
  intros H. rewrite bind_exists in H.
  destruct (node_at (files w) (locate w (ios_library_of script))); cbn [negb] in H.
  - rewrite bind_ret in H. now apply ios_stage_integrate in H.
  - unfold bind at 1 in H. rewrite !bind_print in H. unfold sys_exit in H.
    cbv beta iota in H. injection H as <- <-.
    eexists. split; [trace_ex|]. left. split; [reflexivity|].
    split; [quiet_tac|]. eexists. split; [left; reflexivity | constructor].
Qed.

Lemma ios_main_cases (script : Path) (w : world) (r : result unit)
    (w' : world) :
  ios_main run_process script w = (r, w') ->
  exists lines,
    says w w' lines /\ ios_outcome script r w' lines
    /\ (r = Val tt -> ios_build_ok run_process script w).
Proof.
  unfold ios_main. intros H.
  rewrite bind_getcwd, bind_exists in H.
  match type of H with bind _ (fun has_ios => bind _ ?k) _ = _ =>
    set (K := k) in H end.
  assert (Hroot :
    (r = Exit 1
     /\ w' = printed
               (printed w
                  ["Error: This script must be run from a Flutter project root"%string])
               ["Usage: Run from Flutter project root (e.g., fipers/example)"%string])
    \/ exists root, K root w = (r, w')).
  { assert (Hexample :
      bind (do has_example <-
              exists_ (parent (parent script) </> "example" </> "pubspec.yaml");
            if has_example then ret (parent (parent script) </> "example")
            else
              print "Error: This script must be run from a Flutter project root";;
              print "Usage: Run from Flutter project root (e.g., fipers/example)";;
              sys_exit 1) K w = (r, w') ->
      (r = Exit 1
       /\ w' = printed
                 (printed w
                    ["Error: This script must be run from a Flutter project root"%string])
                 ["Usage: Run from Flutter project root (e.g., fipers/example)"%string])
      \/ exists root, K root w = (r, w')).
    { intros Hk. unfold bind at 1 in Hk. rewrite bind_exists in Hk.
      destruct (node_at (files w)
                  (locate w (parent (parent script) </> "example"
                             </> "pubspec.yaml"))).
      - unfold ret in Hk. cbv beta iota in Hk. right. eauto.
      - rewrite !bind_print in Hk. unfold sys_exit in Hk. cbv beta iota in Hk.
        left. injection Hk as <- <-. auto. }
    destruct (node_at (files w) (locate w (mkPath true (cwd w) </> "pubspec.yaml"))).
    - rewrite bind_exists in H.
      destruct (node_at (files w) (locate w (mkPath true (cwd w) </> "ios"))).
      + cbn [andb] in H. rewrite bind_ret in H. right. eauto.
      + cbn [andb] in H. now apply Hexample.
    - rewrite bind_ret in H. cbn [andb] in H. now apply Hexample. }
  clear H. destruct Hroot as [[-> ->] | [root H]].
  { eexists. split; [trace_ex|]. split; [|discriminate].
    left. split; [reflexivity|]. split; [quiet_tac|].
    eexists. split; [left; reflexivity | constructor]. }
  subst K. cbv beta in H.
  rewrite !bind_print, bind_exists in H.
  set (w2 := printed (printed w _) _) in H.
  assert (Hsay2 : says w w2 ([] ++ [("Using Flutter project: " ++ str root)%string]
                              ++ ["Building iOS library..."%string])).
  { unfold w2. rewrite app_assoc. trace_ex. }
  assert (Hq2 : quiet ([] ++ [("Using Flutter project: " ++ str root)%string]
                       ++ ["Building iOS library..."%string])) by quiet_tac.
  assert (Hfiles2 : files w2 = files w) by reflexivity.
  assert (Hloc2 : forall p, locate w2 p = locate w p) by reflexivity.
  enough (Hrest : exists lines, says w2 w' lines /\ ios_outcome script r w' lines
                                /\ (r = Val tt -> ios_build_ok run_process script w)).
  { destruct Hrest as (lines & Hsay & Hout & Hb). eexists.
    split; [exact (says_trans _ _ _ _ _ Hsay2 Hsay)|].
    split; [now apply ios_outcome_prefix | exact Hb]. }
  clearbody w2. clear Hsay2 Hq2. unfold ios_build_ok.
  rewrite <- Hfiles2, <- !Hloc2.
  destruct (node_at (files w2) (locate w2 (parent script </> "build.sh"))).
  - unfold bind at 1 in H. unfold bind at 1 in H.
    destruct (subprocess_run _ _ _ w2) as [[c | code | e] w3] eqn:Hrun.
    + apply subprocess_inv in Hrun as [(e & [=] & _) | (c' & fs & [= <-] & Hrp & ->)].
      destruct (returncode c =? 0)%Z eqn:Hcode; cbn [negb] in H.
      * unfold ret at 1 in H. cbv beta iota in H.
        apply ios_stage_library in H as (lines & Hsay & Hout).
        exists lines. split; [exact Hsay|]. split; [exact Hout|].
        intros _. right. exists c, fs. split; [exact Hrp | lia].
      * rewrite bind_print in H. unfold sys_exit in H. cbv beta iota in H.
        injection H as <- <-. eexists. split; [trace_ex|].
        split; [|discriminate].
        left. split; [reflexivity|]. split; [quiet_tac|].
        eexists. split; [left; reflexivity|]. constructor. lia.
    + apply subprocess_inv in Hrun as [(e & [=] & _) | (c' & fs & [=] & _)].
    + apply subprocess_inv in Hrun as [(e' & [= <-] & ->) | (c' & fs & [=] & _)].
      cbv beta iota in H. injection H as <- <-.
      exists []. split; [apply says_refl|]. split; [|discriminate].
      right. left. exists e. split; [reflexivity | quiet_tac].
  - rewrite bind_print in H.
    apply ios_stage_library in H as (lines & Hsay & Hout).
    eexists. split; [eapply says_trans; [|exact Hsay]; trace_ex|].
    split; [|auto].
    apply ios_outcome_prefix; [quiet_tac | exact Hout].
Qed.

End Main.

End SysFacts.

Module SysClaims.
Import Sys SysSpec Examples SysFacts.

Lemma does_unique (w w' : world) (a b : list event) :
  does w w' a -> does w w' b -> a = b.
Proof. unfold does. intros H1 H2. rewrite H1 in H2. now apply app_inv_head in H2. Qed.

(** C10: the Android script never changes the file system: whatever its
    argument and the world it runs in, the files, the log of changes and
    the working directory are afterwards as before, also when it has printed
    that it will add the CMake integration. *)
Theorem android_script_is_read_only (argv1 : option Path) (w : world) :
  files (snd (android_main argv1 w)) = files w
  /\ log (snd (android_main argv1 w)) = log w
  /\ cwd (snd (android_main argv1 w)) = cwd w.
Proof. apply read_only_android_main. Qed.

(** C9, as stated: a run of [integrate_library] on a project whose
    [Frameworks] directory does not exist creates it and copies the archive
    into it. *)
Lemma ios_patcher_copies_the_artifact :
  let w := project_world small_manifest in
  let w' := snd (ios_integrate_library proj ios_library w) in
  let dest := ["proj"; "ios"; "Frameworks"; "libfipers.a"]%string in
  fst (ios_integrate_library proj ios_library w) = Val true
  /\ node_at (files w) dest = None
  /\ node_at (files w') dest = Some (File (txt "!<arch>"))
  /\ In (Copy ["fipers"; "ios"; "build"; "libfipers.a"]%string dest) (log w').
Proof.
  intros.
  split; [vm_compute; reflexivity|]. split; [vm_compute; reflexivity|].
  split; [vm_compute; reflexivity|]. vm_compute. right. left. reflexivity.
Qed.

(** C9, amended: [integrate_library] of the iOS script performs the copy
    itself.  When it returns [True] it has created [Frameworks] if it was
    missing, copied the archive there, backed the manifest up and written
    it, in this order and nothing else; the copy holds the bytes of the
    archive and every other place of the file system is as before. *)
Theorem ios_integrate_library_copies_artifact (root lib : Path) (w w' : world) :
  ios_integrate_library root lib w = (Val true, w') ->
  let B := ios_dir_of w root in
  let m := ios_manifest_of w root in
  exists libc d b pre c',
    node_at (files w) (locate w lib) = Some (File libc)
    /\ (d = B ++ ["Frameworks"; "libfipers.a"]%string
        \/ d = B ++ ["Frameworks"; "libfipers.a"; name lib]%string)
    /\ (pre = [] \/ pre = [Mkdir (B ++ ["Frameworks"%string])])
    /\ does w w' (pre ++ [Copy (locate w lib) d; Copy m b; Write m c'])
    /\ node_at (files w') d = Some (File libc)
    /\ (forall l, l <> d -> l <> b -> l <> m ->
                  l <> B ++ ["Frameworks"%string] ->
                  node_at (files w') l = node_at (files w) l).
Proof.
  intros H B m.
  destruct (ios_integrate_cases _ _ _ _ _ H)
    as (evs & lines & Hdo & _ & _ & [([=] & _) | [(e & [=] & _) | (_ & _ & Hok)]]).
  destruct Hok as (libc & content & d & b & pre & H0 & H1 & H2 & H3 & H4 & H5 & -> & H7 & H8 & H9 & H10).
  exists libc, d, b, pre. eexists. repeat split; eauto.
Qed.

Lemma ios_integrate_library_copies_artifact_witness :
  exists w',
    ios_integrate_library proj ios_library (project_world small_manifest)
    = (Val true, w')
    /\ exists libc d b pre c',
         node_at (files (project_world small_manifest)) (locate (project_world small_manifest) ios_library)
         = Some (File libc)
         /\ (d = ios_dir_of (project_world small_manifest) proj ++ ["Frameworks"; "libfipers.a"]%string
             \/ d = ios_dir_of (project_world small_manifest) proj
                    ++ ["Frameworks"; "libfipers.a"; name ios_library]%string)
         /\ (pre = [] \/ pre = [Mkdir (ios_dir_of (project_world small_manifest) proj ++ ["Frameworks"%string])])
         /\ does (project_world small_manifest) w'
              (pre ++ [Copy (locate (project_world small_manifest) ios_library) d;
                       Copy (ios_manifest_of (project_world small_manifest) proj) b;
                       Write (ios_manifest_of (project_world small_manifest) proj) c'])
         /\ node_at (files w') d = Some (File libc)
         /\ (forall l, l <> d -> l <> b ->
                       l <> ios_manifest_of (project_world small_manifest) proj ->
                       l <> ios_dir_of (project_world small_manifest) proj ++ ["Frameworks"%string] ->
                       node_at (files w') l
                       = node_at (files (project_world small_manifest)) l).
Proof.
  eexists. split; [vm_compute; reflexivity|].
  apply (ios_integrate_library_copies_artifact proj ios_library).
  vm_compute. reflexivity.
Defined.

(** C8, as stated: the backup is not timestamped.  A second run writes its
    backup over the one of the first run, at the same fixed name, and no
    other file appears: the text the manifest had before the first run is
    then in no backup. *)
Lemma ios_backup_is_overwritten_by_next_run :
  let w0 := project_world small_manifest in
  let w1 := snd (ios_main no_programs ios_script w0) in
  let w2 := snd (ios_main no_programs ios_script w1) in
  let backup :=
    ["proj"; "ios"; "Runner.xcodeproj"; "project.pbxproj.backup"]%string in
  let patched :=
    IOS.patch ios_file_ref_id ios_build_file_id small_manifest in
  node_at (files w1) backup = Some (File small_manifest)
  /\ node_at (files w2) backup = Some (File patched)
  /\ patched <> small_manifest
  /\ map fst (map_to_list (files w2)) = map fst (map_to_list (files w1)).
Proof.
  intros.
  split; [vm_compute; reflexivity|]. split; [vm_compute; reflexivity|].
  split; [|vm_compute; reflexivity].
  intros E. apply (f_equal (@length ascii)) in E. vm_compute in E.
  discriminate E.
Qed.

(** C8, amended: whenever a run of the iOS [integrate_library] writes the
    manifest, it has copied the manifest just before to its backup, the
    fixed name [project.pbxproj.backup] beside it (or into it when that is a
    directory), nothing was written earlier, and at the end of the run the
    backup holds the text the manifest had when the run started. *)
Theorem ios_backup_precedes_manifest_write (root lib : Path) (w : world)
    (r : result bool) (w' : world) (evs : list event) :
  ios_integrate_library root lib w = (r, w') ->
  does w w' evs ->
  (exists l c, In (Write l c) evs) ->
  let B := ios_dir_of w root in
  let m := ios_manifest_of w root in
  exists content b pre c',
    node_at (files w) m = Some (File content)
    /\ (b = B ++ ["Runner.xcodeproj"; "project.pbxproj.backup"]%string
        \/ b = B ++ ["Runner.xcodeproj"; "project.pbxproj.backup";
                     "project.pbxproj"]%string)
    /\ evs = pre ++ [Copy m b; Write m c']
    /\ (forall l c, ~ In (Write l c) pre)
    /\ node_at (files w') b = Some (File content).
Proof.
  intros H Hdo (l & c & Hin) B m.
  destruct (ios_integrate_cases _ _ _ _ _ H)
    as (evs0 & lines & Hdo0 & _ & _ & Hcases).
  rewrite (does_unique _ _ _ _ Hdo Hdo0) in *.
  destruct Hcases as [(_ & -> & _) | [(e & _ & Hno & _) | (_ & _ & Hok)]].
  - destruct Hin.
  - now apply Hno in Hin.
  - destruct Hok as (libc & content & d & b & pre & H0 & H1 & H2 & H3 & H4
                     & H5 & -> & H7 & H8 & H9 & H10).
    exists content, b, (pre ++ [Copy (locate w lib) d]). eexists.
    split; [exact H2|]. split; [exact H4|].
    split; [now rewrite <- app_assoc|]. split; [|exact H8].
    intros l' c' Hin'. apply in_app_or in Hin' as [Hin' | [E | []]].
    + destruct H5 as [-> | ->]; [destruct Hin'|].
      destruct Hin' as [E | []]. discriminate E.
    + discriminate E.
Qed.

Lemma ios_backup_precedes_manifest_write_witness :
  let w := project_world small_manifest in
  let run := ios_integrate_library proj ios_library w in
  exists content b pre c',
    node_at (files w) (ios_manifest_of w proj) = Some (File content)
    /\ (b = ios_dir_of w proj
            ++ ["Runner.xcodeproj"; "project.pbxproj.backup"]%string
        \/ b = ios_dir_of w proj
               ++ ["Runner.xcodeproj"; "project.pbxproj.backup";
                   "project.pbxproj"]%string)
    /\ log (snd run) = pre ++ [Copy (ios_manifest_of w proj) b;
                               Write (ios_manifest_of w proj) c']
    /\ (forall l c, ~ In (Write l c) pre)
    /\ node_at (files (snd run)) b = Some (File content).
Proof.
  intros w run.
  apply (ios_backup_precedes_manifest_write proj ios_library w (fst run)).
  - vm_compute. reflexivity.
  - vm_compute. reflexivity.
  - exists (ios_manifest_of w proj),
      (IOS.patch ios_file_ref_id ios_build_file_id small_manifest).
    vm_compute. right. right. right. left. reflexivity.
Defined.

(** C7, as stated: the macOS script run on a project without
    [Runner.xcodeproj/project.pbxproj] skips the manifest, prints its success
    line and ends with status 0; the Android script that does not find the
    fipers root prints a warning and ends with status 0 too. *)
Lemma missing_manifest_reported_as_success :
  let w := project_world small_manifest in
  let run := macos_main no_programs macos_script w in
  let check := android_main (Some proj) w in
  node_at (files w)
    ["proj"; "macos"; "Runner.xcodeproj"; "project.pbxproj"]%string = None
  /\ exit_status (fst run) = 0%Z
  /\ In macos_success_line (console (snd run))
  /\ exit_status (fst check) = 0%Z
  /\ In "⚠️  Could not find fipers root with android/CMakeLists.txt"%string
       (console (snd check)).
Proof.
  intros.
  split; [vm_compute; reflexivity|]. split; [vm_compute; reflexivity|].
  split; [vm_compute; do 7 right; left; reflexivity|].
  split; [vm_compute; reflexivity|].
  vm_compute. right. left. reflexivity.
Qed.

(** C7, amended: the iOS script ends with status 0 only after it has
    reported success, and then the build step had not failed, and the
    project's [ios] directory, its manifest and the built archive were there
    when [integrate_library] started.  In every other run the status is 1,
    no success line is printed, and when the script itself ends the run
    ([sys.exit]) it has printed a diagnostic that names what is missing. *)
Theorem ios_exit_status_reports_failures
    (run_process :
       list string -> option (list string) -> gmap (list string) node ->
       completed * gmap (list string) node + string)
    (script : Path) (w : world) (r : result unit) (w' : world) :
  ios_main run_process script w = (r, w') ->
  exists lines,
    says w w' lines
    /\ (exit_status r = 0%Z ->
        (In ios_success_line lines \/ In ios_updated_line lines)
        /\ ios_build_ok run_process script w
        /\ exists root w1,
             ios_integrate_library root (ios_library_of script) w1
             = (Val true, w')
             /\ node_at (files w1) (ios_dir_of w1 root) <> None
             /\ node_at (files w1) (ios_manifest_of w1 root) <> None
             /\ node_at (files w1) (locate w1 (ios_library_of script)) <> None)
    /\ (exit_status r <> 0%Z ->
        exit_status r = 1%Z /\ quiet lines
        /\ forall c, r = Exit c ->
                     exists d, In d lines /\ ios_diagnostic d).
Proof.
  intros H.
  destruct (ios_main_cases run_process _ _ _ _ H) as (lines & Hsay & Hout & Hb).
  exists lines. split; [exact Hsay|].
  destruct Hout as [(-> & Hq & Hd) | [(e & -> & Hq) | (-> & Hyes & root & w1 & Hrun)]].
  - split; [discriminate|]. intros _.
    split; [reflexivity|]. split; [exact Hq|]. intros c _. exact Hd.
  - split; [discriminate|]. intros _.
    split; [reflexivity|]. split; [exact Hq|]. intros c [=].
  - split; [|intros E; now elim E]. intros _.
    split; [exact Hyes|]. split; [auto|]. exists root, w1.
    split; [exact Hrun|].
    destruct (ios_integrate_cases _ _ _ _ _ Hrun)
      as (evs & lines' & _ & _ & _ & [([=] & _) | [(e & [=] & _) | (_ & _ & Hok)]]).
    destruct Hok as (libc & content & d & b & pre & H0 & H1 & H2 & _).
    split; [exact H0|]. split; congruence.
Qed.

Lemma ios_exit_status_reports_failures_witness :
  let w := project_world small_manifest in
  let run := ios_main no_programs ios_script w in
  exists lines,
    says w (snd run) lines
    /\ (exit_status (fst run) = 0%Z ->
        (In ios_success_line lines \/ In ios_updated_line lines)
        /\ ios_build_ok no_programs ios_script w
        /\ exists root w1,
             ios_integrate_library root (ios_library_of ios_script) w1
             = (Val true, snd run)
             /\ node_at (files w1) (ios_dir_of w1 root) <> None
             /\ node_at (files w1) (ios_manifest_of w1 root) <> None
             /\ node_at (files w1) (locate w1 (ios_library_of ios_script))
                <> None)
    /\ (exit_status (fst run) <> 0%Z ->
        exit_status (fst run) = 1%Z /\ quiet lines
        /\ forall c, fst run = Exit c ->
                     exists d, In d lines /\ ios_diagnostic d).
Proof.
  intros w run.
  apply (ios_exit_status_reports_failures no_programs ios_script w).
  vm_compute. reflexivity.
Defined.

End SysClaims.
